(** * The HTTP compaction action of the storage engine

    A shallow embedding of [be/src/http/action/compaction_action.cpp]:
    parameter checking, the three request handlers (show, run, run-status),
    the compaction callback run on the background thread, and the
    top-level [handle] dispatcher.

    The handlers are written in a small state-and-early-return monad over a
    [World] that holds the tablet registry, the two failure counters, the
    detached background tasks and a trace of the calls made to the
    collaborators (tablet manager, storage engine, locks, compaction
    objects).  Code that lives outside the file (the compaction classes, the
    engine's task submission, the future's timed wait, the fault-injection
    macro, [Status::to_json]) is taken as a record of collaborators. *)

From Stdlib Require Import ZArith Ascii String List Lia DecimalString.
From stdpp Require Import base decidable option gmap strings list.

Local Open Scope Z_scope.
Local Open Scope string_scope.
Local Open Scope list_scope.

(* ===================================================================== *)
(** ** Status                                                             *)
(* ===================================================================== *)

Module Status.

(** Modelled from the spec: the typed failure every operation returns,
    declared in [common/status.h].  These are the codes the action builds
    or tests with [is<...>()]; any other code of the engine is
    [OTHER_ERROR n]. *)
Inductive ErrorCode :=
| OK
| INTERNAL_ERROR
| NOT_FOUND
| NOT_SUPPORTED
| BE_NO_SUITABLE_VERSION
| CUMULATIVE_NO_SUITABLE_VERSION
| FULL_NO_SUITABLE_VERSION
| OTHER_ERROR (n : Z).

#[global] Instance ErrorCode_eq_dec : EqDecision ErrorCode.
Proof. solve_decision. Defined.

Record t := mk { code : ErrorCode; msg : string }.

#[global] Instance t_eq_dec : EqDecision t.
Proof. solve_decision. Defined.

Definition OK_ : t := mk OK "".
Definition InternalError (m : string) : t := mk INTERNAL_ERROR m.
Definition NotFound (m : string) : t := mk NOT_FOUND m.
Definition NotSupported (m : string) : t := mk NOT_SUPPORTED m.

(** [st.ok()], also the value of [st] in a boolean context. *)
Definition ok (st : t) : bool :=
  match code st with
  | OK => true
  | _ => false
  end.

(** [st.is<c>()]. *)
Definition is_code (c : ErrorCode) (st : t) : bool := bool_decide (code st = c).

End Status.

Abbreviation Status := Status.t.

(* ===================================================================== *)
(** ** Strings: decimal printing, [std::stoull], [absl::Substitute]       *)
(* ===================================================================== *)

Definition ULLONG_MAX : Z := 2 ^ 64 - 1.

(** A value of type [uint64_t]. *)
Definition is_uint64 (n : Z) : Prop := 0 <= n <= ULLONG_MAX.

(** [std::to_string] on a [uint64_t]. *)
Definition to_string (n : Z) : string :=
  NilZero.string_of_uint (N.to_uint (Z.to_N n)).

Definition dquote : string := String "034"%char EmptyString.
Definition newline : string := String "010"%char EmptyString.

Module Stoull.

(** What [std::stoull] throws. *)
Inductive exception := invalid_argument | out_of_range.

(** [e.what()]; the text is the library's, the function name in
    libstdc++. *)
Definition what (e : exception) : string := "stoull".

(** [isspace] in the C locale. *)
Definition isspace (c : ascii) : bool :=
  let n := Z.of_N (N_of_ascii c) in
  ((n =? 32) || ((9 <=? n) && (n <=? 13)))%Z.

Definition digit (c : ascii) : option Z :=
  let n := Z.of_N (N_of_ascii c) in
  if ((48 <=? n) && (n <=? 57))%Z then Some (n - 48) else None.

Fixpoint skip_space (s : string) : string :=
  match s with
  | String c s' => if isspace c then skip_space s' else s
  | EmptyString => s
  end.

(** The longest run of decimal digits at the head of [s], as a number;
    [None] when [s] does not start with a digit. *)
Fixpoint digits (s : string) (acc : option Z) : option Z :=
  match s with
  | String c s' =>
      match digit c with
      | Some d => digits s' (Some (10 * default 0 acc + d))
      | None => acc
      end
  | EmptyString => acc
  end.

(** [std::stoull(s)] in base 10, as [strtoull] reads it: leading white
    space, an optional sign, then digits; anything after the digits is
    ignored.  No digit: [invalid_argument].  A magnitude above
    [ULLONG_MAX]: [out_of_range].  A minus sign negates modulo [2^64]. *)
Definition stoull (s : string) : exception + Z :=
  let s1 := skip_space s in
  let '(neg, s2) :=
    match s1 with
    | String "-"%char r => (true, r)
    | String "+"%char r => (false, r)
    | _ => (false, s1)
    end in
  match digits s2 None with
  | None => inl invalid_argument
  | Some v =>
      if (ULLONG_MAX <? v)%Z then inl out_of_range
      else inr (if neg then (2 ^ 64 - v) mod 2 ^ 64 else v)
  end.

End Stoull.

Module Substitute.

(** The argument kinds [absl::Substitute] receives in this file. *)
Inductive Arg :=
| ArgBool (b : bool)
| ArgString (s : string)
| ArgUInt64 (n : Z).

Definition render (a : Arg) : string :=
  match a with
  | ArgBool true => "true"
  | ArgBool false => "false"
  | ArgString s => s
  | ArgUInt64 n => to_string n
  end.

(** [absl::Substitute(format, args...)]: [$0]..[$9] name an argument,
    [$$] is a dollar sign. *)
Fixpoint substitute (format : string) (args : list Arg) : string :=
  match format with
  | String "$"%char (String c rest) =>
      match Stoull.digit c with
      | Some i =>
          default "" (render <$> (args !! Z.to_nat i)) +:+ substitute rest args
      | None =>
          if bool_decide (c = "$"%char)
          then String "$"%char (substitute rest args)
          else String "$"%char (String c (substitute rest args))
      end
  | String c rest => String c (substitute rest args)
  | EmptyString => EmptyString
  end.

End Substitute.

(* ===================================================================== *)
(** ** Data model                                                         *)
(* ===================================================================== *)

(** Modelled from the spec: the request of [http/http_request.h], as far
    as the action reads it, namely its query parameters.  [req->param(key)]
    is the empty string for a key the request lacks. *)
Record HttpRequest := { params : gmap string string }.

Definition param (req : HttpRequest) (key : string) : string :=
  default "" (params req !! key).

(** Modelled from the spec: the names and values of the request
    parameters, which the action's header declares. *)
Definition TABLET_ID_KEY : string := "tablet_id".
Definition TABLE_ID_KEY : string := "table_id".
Definition PARAM_COMPACTION_TYPE : string := "compact_type".
Definition PARAM_COMPACTION_BASE : string := "base".
Definition PARAM_COMPACTION_CUMULATIVE : string := "cumulative".
Definition PARAM_COMPACTION_FULL : string := "full".
Definition PARAM_COMPACTION_REMOTE : string := "remote".

Inductive CompactionActionType := SHOW_INFO | RUN_COMPACTION | RUN_COMPACTION_STATUS.

(** The engine's [CompactionType] enumeration. *)
Inductive CompactionType := BASE_COMPACTION | CUMULATIVE_COMPACTION | FULL_COMPACTION.

(** The classes derived from [Compaction] that the callback instantiates. *)
Inductive CompactionVariant :=
| BaseCompaction
| CumulativeCompaction
| FullCompaction
| SingleReplicaCompaction.

(** The two per-tablet compaction mutexes. *)
Inductive Level := CumulativeLock | BaseLock.

(** Modelled from the spec: the increment-only failure counters of
    [DorisMetrics], one for base and one for cumulative compaction. *)
Inductive Counter := BaseRequestFailed | CumulativeRequestFailed.

Inductive future_status := ready | timeout | deferred.

Inductive HttpStatus := HTTP_OK | HTTP_BAD_REQUEST | HTTP_NOT_FOUND | HTTP_INTERNAL_SERVER_ERROR.

#[global] Instance CompactionType_eq_dec : EqDecision CompactionType.
Proof. solve_decision. Defined.
#[global] Instance CompactionVariant_eq_dec : EqDecision CompactionVariant.
Proof. solve_decision. Defined.
#[global] Instance Level_eq_dec : EqDecision Level.
Proof. solve_decision. Defined.
#[global] Instance Counter_eq_dec : EqDecision Counter.
Proof. solve_decision. Defined.
#[global] Instance future_status_eq_dec : EqDecision future_status.
Proof. solve_decision. Defined.
#[global] Instance HttpStatus_eq_dec : EqDecision HttpStatus.
Proof. solve_decision. Defined.

(** A [std::shared_ptr<CumulativeCompactionPolicy>]: the object it points
    to ([instance], fresh for every object the factory creates) and the
    metadata string the object was created from. *)
Record CumulativeCompactionPolicy := {
  instance : N;
  created_from : string
}.

#[global] Instance CumulativeCompactionPolicy_eq_dec : EqDecision CumulativeCompactionPolicy.
Proof. solve_decision. Defined.

(** A [std::mutex]: [true] when some thread holds it. *)
Definition mutex := bool.

(** Modelled from the spec: the tablet of [olap/tablet.h], as far as the
    action reads or writes it: owning table, full-compaction flag, the two
    compaction mutexes, replication role, the policy name in its metadata,
    the bound policy and its compaction status text. *)
Record Tablet := {
  table_id : Z;
  is_full_compaction_running : bool;
  cumulative_compaction_lock : mutex;
  base_compaction_lock : mutex;
  should_fetch_from_peer : bool;
  compaction_policy : string;
  cumulative_compaction_policy : option CumulativeCompactionPolicy;
  compaction_status : string
}.

Definition set_cumulative_compaction_lock (m : mutex) (t : Tablet) : Tablet :=
  {| table_id := table_id t;
     is_full_compaction_running := is_full_compaction_running t;
     cumulative_compaction_lock := m;
     base_compaction_lock := base_compaction_lock t;
     should_fetch_from_peer := should_fetch_from_peer t;
     compaction_policy := compaction_policy t;
     cumulative_compaction_policy := cumulative_compaction_policy t;
     compaction_status := compaction_status t |}.

Definition set_base_compaction_lock (m : mutex) (t : Tablet) : Tablet :=
  {| table_id := table_id t;
     is_full_compaction_running := is_full_compaction_running t;
     cumulative_compaction_lock := cumulative_compaction_lock t;
     base_compaction_lock := m;
     should_fetch_from_peer := should_fetch_from_peer t;
     compaction_policy := compaction_policy t;
     cumulative_compaction_policy := cumulative_compaction_policy t;
     compaction_status := compaction_status t |}.

Definition set_cumulative_compaction_policy
    (p : CumulativeCompactionPolicy) (t : Tablet) : Tablet :=
  {| table_id := table_id t;
     is_full_compaction_running := is_full_compaction_running t;
     cumulative_compaction_lock := cumulative_compaction_lock t;
     base_compaction_lock := base_compaction_lock t;
     should_fetch_from_peer := should_fetch_from_peer t;
     compaction_policy := compaction_policy t;
     cumulative_compaction_policy := Some p;
     compaction_status := compaction_status t |}.

Definition get_lock (l : Level) (t : Tablet) : mutex :=
  match l with
  | CumulativeLock => cumulative_compaction_lock t
  | BaseLock => base_compaction_lock t
  end.

Definition set_lock (l : Level) (m : mutex) (t : Tablet) : Tablet :=
  match l with
  | CumulativeLock => set_cumulative_compaction_lock m t
  | BaseLock => set_base_compaction_lock m t
  end.

(** The closure handed to the background thread. *)
Record Task := {
  task_tablet : Z;
  task_compaction_type : string;
  task_fetch_from_remote : bool
}.

(** Calls the action makes to its collaborators, in the order made. *)
Inductive Event :=
| GetTablet (tablet_id : Z)
| GetAllTablet (table_id : Z)
| GetCompactionStatus (tablet : Z)
| GetCompactionStatusJson
| SubmitCompactionTask (tablet : Z) (ct : CompactionType) (force : bool)
| ThreadDetach (task : Task)
| WaitFor (seconds : Z)
| TryLock (tablet : Z) (l : Level) (owns : bool)
| Unlock (tablet : Z) (l : Level)
| PrepareCompact (v : CompactionVariant) (tablet : Z) (res : Status)
| ExecuteCompact (v : CompactionVariant) (tablet : Z) (res : Status)
| Increment (c : Counter).

(** The state the action runs in.  A [TabletSharedPtr] is the key of the
    tablet in [tablets]; [nullptr] is [None]. *)
Record World := {
  tablets : gmap Z Tablet;
  base_compaction_request_failed : Z;
  cumulative_compaction_request_failed : Z;
  next_instance : N;
  detached : list Task;
  trace : list Event
}.

Definition with_tablets (f : gmap Z Tablet -> gmap Z Tablet) (w : World) : World :=
  {| tablets := f (tablets w);
     base_compaction_request_failed := base_compaction_request_failed w;
     cumulative_compaction_request_failed := cumulative_compaction_request_failed w;
     next_instance := next_instance w;
     detached := detached w;
     trace := trace w |}.

Definition log (e : Event) (w : World) : World :=
  {| tablets := tablets w;
     base_compaction_request_failed := base_compaction_request_failed w;
     cumulative_compaction_request_failed := cumulative_compaction_request_failed w;
     next_instance := next_instance w;
     detached := detached w;
     trace := trace w ++ [e] |}.

Definition counter (c : Counter) (w : World) : Z :=
  match c with
  | BaseRequestFailed => base_compaction_request_failed w
  | CumulativeRequestFailed => cumulative_compaction_request_failed w
  end.

Definition add_counter (c : Counter) (delta : Z) (w : World) : World :=
  {| tablets := tablets w;
     base_compaction_request_failed :=
       match c with
       | BaseRequestFailed => base_compaction_request_failed w + delta
       | CumulativeRequestFailed => base_compaction_request_failed w
       end;
     cumulative_compaction_request_failed :=
       match c with
       | BaseRequestFailed => cumulative_compaction_request_failed w
       | CumulativeRequestFailed => cumulative_compaction_request_failed w + delta
       end;
     next_instance := next_instance w;
     detached := detached w;
     trace := trace w |}.

Definition alloc_instance (w : World) : World :=
  {| tablets := tablets w;
     base_compaction_request_failed := base_compaction_request_failed w;
     cumulative_compaction_request_failed := cumulative_compaction_request_failed w;
     next_instance := N.succ (next_instance w);
     detached := detached w;
     trace := trace w |}.

Definition push_detached (task : Task) (w : World) : World :=
  {| tablets := tablets w;
     base_compaction_request_failed := base_compaction_request_failed w;
     cumulative_compaction_request_failed := cumulative_compaction_request_failed w;
     next_instance := next_instance w;
     detached := detached w ++ [task];
     trace := trace w |}.

Definition pop_detached (w : World) : World :=
  {| tablets := tablets w;
     base_compaction_request_failed := base_compaction_request_failed w;
     cumulative_compaction_request_failed := cumulative_compaction_request_failed w;
     next_instance := next_instance w;
     detached := tail (detached w);
     trace := trace w |}.

(** Code of the engine that is not part of this file.  Each result may
    depend on the whole state, the trace so far included. *)
Record Collaborators := {
  (** [Compaction::prepare_compact] and [Compaction::execute_compact] of
      the object built for a tablet. *)
  prepare_compact : CompactionVariant -> Z -> World -> Status;
  execute_compact : CompactionVariant -> Z -> World -> Status;
  (** [StorageEngine::submit_compaction_task]. *)
  submit_compaction_task : Z -> CompactionType -> bool -> World -> Status;
  (** [std::future::wait_for] on the future of the detached task. *)
  wait_for : Z -> World -> future_status;
  (** Whether [DBUG_EXECUTE_IF] finds the named debug point active. *)
  debug_point : string -> World -> bool;
  (** [StorageEngine::get_compaction_status_json]. *)
  get_compaction_status_json : World -> string;
  (** [Status::to_json]. *)
  to_json : Status -> string
}.

(* ===================================================================== *)
(** ** The handler monad                                                  *)
(* ===================================================================== *)

(** A computation inside a function whose return type is [R]: it runs on
    the [World] and either falls through with a value ([inr]) or leaves the
    function with [return r] ([inl r]). *)
Definition M (R A : Type) : Type := World -> (R + A) * World.

Definition ret {R A} (a : A) : M R A := fun w => (inr a, w).

Definition return_ {R A} (r : R) : M R A := fun w => (inl r, w).

Definition bind {R A B} (m : M R A) (k : A -> M R B) : M R B :=
  fun w =>
    match m w with
    | (inr a, w') => k a w'
    | (inl r, w') => (inl r, w')
    end.

Notation "'let*' x ':=' m 'in' k" := (bind m (fun x => k))
  (at level 10, x name, m at level 100, k at level 200).
Notation "m ';;' k" := (bind m (fun _ => k))
  (at level 100, k at level 200, right associativity).

Definition get {R A} (f : World -> A) : M R A := fun w => (inr (f w), w).

Definition modify {R} (f : World -> World) : M R unit := fun w => (inr tt, f w).

Definition emit {R} (e : Event) : M R unit := modify (log e).

Definition when {R} (b : bool) (m : M R unit) : M R unit :=
  if b then m else ret tt.

(** A function body: every path through it ends in a [return]. *)
Definition body (R : Type) : Type := M R Empty_set.

(** Calling a function: the value it returned. *)
Definition call {R} (f : body R) : World -> R * World :=
  fun w =>
    match f w with
    | (inl r, w') => (r, w')
    | (inr e, _) => match e with end
    end.

(** A call made from inside another function. *)
Definition invoke {R R'} (f : body R') : M R R' :=
  fun w => let '(r, w') := call f w in (inr r, w').

(** The return type of a handler
    [Status f(HttpRequest* req, std::string* json_result)] called with an
    empty [json_result]: the status and the string left in [json_result]. *)
Definition HandlerResult : Type := Status * string.

(** How a function returns a bare [Status]. *)
Class ReturnsStatus (R : Type) := of_status : Status -> R.
#[global] Instance Status_returns : ReturnsStatus Status := fun st => st.
#[global] Instance Handler_returns : ReturnsStatus HandlerResult :=
  fun st => (st, "").

(** [RETURN_IF_ERROR(stmt)] and [RETURN_NOT_OK_STATUS_WITH_WARN(stmt, _)]:
    leave the function with the status unless it is OK. *)
Definition RETURN_IF_ERROR {R} `{ReturnsStatus R} (st : Status) : M R unit :=
  if Status.ok st then ret tt else return_ (of_status st).

(** [*json_result = json; return Status::OK();] *)
Definition return_json {A} (json : string) : M HandlerResult A :=
  return_ (Status.OK_, json).

(* ===================================================================== *)
(** ** Parameter checking                                                 *)
(* ===================================================================== *)

(** [_check_param(req, &tablet_id, &table_id)]: the status and the values
    left in the two out-parameters. *)
Definition _check_param (req : HttpRequest) (tablet_id table_id : Z)
    : Status * Z * Z :=
  let req_tablet_id := param req TABLET_ID_KEY in
  let req_table_id := param req TABLE_ID_KEY in
  if bool_decide (req_tablet_id = "") then
    if bool_decide (req_table_id = "") then
      (Status.InternalError
         "tablet id and table id can not be empty at the same time!",
       tablet_id, table_id)
    else
      match Stoull.stoull req_table_id with
      | inr v => (Status.OK_, tablet_id, v)
      | inl e =>
          (Status.InternalError ("convert table_id failed, " +:+ Stoull.what e),
           tablet_id, table_id)
      end
  else if bool_decide (req_table_id = "") then
    match Stoull.stoull req_tablet_id with
    | inr v => (Status.OK_, v, table_id)
    | inl e =>
        (Status.InternalError ("convert tablet_id failed, " +:+ Stoull.what e),
         tablet_id, table_id)
    end
  else
    (Status.InternalError
       "tablet id and table id can not be set at the same time!",
     tablet_id, table_id).

(** [_check_param(req, &id_param, param_name)], the second overload. *)
Definition _check_param_id (req : HttpRequest) (id_param : Z)
    (param_name : string) : Status * Z :=
  let req_id_param := param req param_name in
  if negb (bool_decide (req_id_param = "")) then
    match Stoull.stoull req_id_param with
    | inr v => (Status.OK_, v)
    | inl e =>
        (Status.InternalError
           ("convert " +:+ param_name +:+ " failed, " +:+ Stoull.what e),
         id_param)
    end
  else (Status.OK_, id_param).

(* ===================================================================== *)
(** ** Collaborator calls                                                 *)
(* ===================================================================== *)

(** [tablet->f()] through a non-null [TabletSharedPtr]; [d] stands for a
    pointer that names no tablet, which the tablet manager never hands
    out. *)
Definition tablet_get {R A} (f : Tablet -> A) (d : A) (tablet : Z) : M R A :=
  get (fun w => from_option f d (tablets w !! tablet)).

(** [_engine.tablet_manager()->get_tablet(tablet_id)]. *)
Definition get_tablet {R} (tablet_id : Z) : M R (option Z) :=
  emit (GetTablet tablet_id) ;;
  get (fun w => if tablets w !! tablet_id is Some _ then Some tablet_id else None).

(** [_engine.tablet_manager()->get_all_tablet(pred)] with the predicate
    [tablet->get_table_id() == table_id]. *)
Definition get_all_tablet {R} (tid : Z) : M R (list Z) :=
  emit (GetAllTablet tid) ;;
  get (fun w =>
         fst <$> filter (fun kv => table_id kv.2 = tid) (map_to_list (tablets w))).

(** [std::mutex::try_lock]: whether the caller got the mutex, and the
    mutex afterwards. *)
Definition try_lock (m : mutex) : bool * mutex := (negb m, true).

(** [std::unique_lock<std::mutex> lock(m, std::try_to_lock)] followed by
    [lock.owns_lock()]. *)
Definition try_to_lock {R} (tablet : Z) (l : Level) : M R bool :=
  let* m := tablet_get (get_lock l) true tablet in
  let '(owns, m') := try_lock m in
  emit (TryLock tablet l owns) ;;
  modify (with_tablets (alter (set_lock l m') tablet)) ;;
  ret owns.

(** The destructor of a [unique_lock] that owns its mutex. *)
Definition unlock {R} (tablet : Z) (l : Level) : M R unit :=
  emit (Unlock tablet l) ;;
  modify (with_tablets (alter (set_lock l false) tablet)).

(** [DorisMetrics::instance()->c->increment(1)]. *)
Definition increment {R} (c : Counter) : M R unit :=
  emit (Increment c) ;;
  modify (add_counter c 1).

(** [CumulativeCompactionPolicyFactory::create_cumulative_compaction_policy]:
    a new policy object for the given metadata string. *)
Definition create_cumulative_compaction_policy {R} (name : string)
    : M R CumulativeCompactionPolicy :=
  let* i := get next_instance in
  modify alloc_instance ;;
  ret {| instance := i; created_from := name |}.

Definition q (s : string) : string := dquote +:+ s +:+ dquote.

Definition indent (n : nat) : string := Nat.iter n (String " "%char) "".

(** The raw string literal of [_handle_run_status_compaction]. *)
Definition json_template : string :=
  "{" +:+ newline +:+
  indent 12 +:+ q "status" +:+ " : " +:+ q "Success" +:+ "," +:+ newline +:+
  indent 12 +:+ q "run_status" +:+ " : $0," +:+ newline +:+
  indent 12 +:+ q "msg" +:+ " : " +:+ q "$1" +:+ "," +:+ newline +:+
  indent 12 +:+ q "tablet_id" +:+ " : $2," +:+ newline +:+
  indent 12 +:+ q "compact_type" +:+ " : " +:+ q "$3" +:+ newline +:+
  indent 8 +:+ "}".

Definition run_status_json (run_status : bool) (msg : string) (tablet_id : Z)
    (compaction_type : string) : string :=
  Substitute.substitute json_template
    [Substitute.ArgBool run_status; Substitute.ArgString msg;
     Substitute.ArgUInt64 tablet_id; Substitute.ArgString compaction_type].

(** The reply of a successful trigger. *)
Definition triggered_json (prefix : string) (table_id tablet_id : Z) : string :=
  "{" +:+ q "status" +:+ ": " +:+ q "Success" +:+ ", " +:+ q "msg" +:+ ": " +:+
  dquote +:+ prefix +:+ to_string table_id +:+ ". Tablet id: " +:+
  to_string tablet_id +:+ dquote +:+ "}".

Definition DEBUG_SUBMIT_CUMU_TASK : string :=
  "CompactionAction._handle_run_compaction.submit_cumu_task".

(** What [HttpChannel::send_reply] sends. *)
Record HttpReply := {
  reply_status : HttpStatus;
  reply_content : string
}.

(* ===================================================================== *)
(** ** The action                                                         *)
(* ===================================================================== *)

Section CompactionAction.

Context (env : Collaborators).

Definition call_prepare_compact {R} (v : CompactionVariant) (tablet : Z) : M R Status :=
  let* st := get (prepare_compact env v tablet) in
  emit (PrepareCompact v tablet st) ;;
  ret st.

Definition call_execute_compact {R} (v : CompactionVariant) (tablet : Z) : M R Status :=
  let* st := get (execute_compact env v tablet) in
  emit (ExecuteCompact v tablet st) ;;
  ret st.

Definition call_submit_compaction_task {R} (tablet : Z) (ct : CompactionType)
    (force : bool) : M R Status :=
  let* st := get (submit_compaction_task env tablet ct force) in
  emit (SubmitCompactionTask tablet ct force) ;;
  ret st.

Definition call_wait_for {R} (seconds : Z) : M R future_status :=
  let* fs := get (wait_for env seconds) in
  emit (WaitFor seconds) ;;
  ret fs.

(** The lambda [do_compact] of the callback. *)
Definition do_compact (compaction : CompactionVariant) (tablet : Z) : body Status :=
  let* st := call_prepare_compact compaction tablet in
  RETURN_IF_ERROR st ;;
  let* st := call_execute_compact compaction tablet in
  return_ st.

Definition _execute_compaction_callback (tablet : Z) (compaction_type : string)
    (fetch_from_remote : bool) : body Status :=
  let* name := tablet_get compaction_policy "" tablet in
  let* policy := create_cumulative_compaction_policy name in
  let* bound := tablet_get cumulative_compaction_policy None tablet in
  when (bool_decide (bound = None))
    (modify (with_tablets (alter (set_cumulative_compaction_policy policy) tablet))) ;;
  let* res :=
    if bool_decide (compaction_type = PARAM_COMPACTION_BASE) then
      let* res := invoke (do_compact BaseCompaction tablet) in
      when (negb (Status.ok res))
        (when (negb (Status.is_code Status.BE_NO_SUITABLE_VERSION res))
           (increment BaseRequestFailed)) ;;
      ret res
    else if bool_decide (compaction_type = PARAM_COMPACTION_CUMULATIVE) then
      if fetch_from_remote then
        let* res := invoke (do_compact SingleReplicaCompaction tablet) in
        ret res
      else
        let* res := invoke (do_compact CumulativeCompaction tablet) in
        when (negb (Status.ok res))
          (if Status.is_code Status.CUMULATIVE_NO_SUITABLE_VERSION res
           then ret tt
           else increment CumulativeRequestFailed) ;;
        ret res
    else if bool_decide (compaction_type = PARAM_COMPACTION_FULL) then
      let* res := invoke (do_compact FullCompaction tablet) in
      ret res
    else ret Status.OK_ in
  return_ res.

(** The body of the task handed to [std::thread]. *)
Definition run_task (task : Task) : body Status :=
  _execute_compaction_callback
    (task_tablet task) (task_compaction_type task) (task_fetch_from_remote task).

Definition _handle_show_compaction (req : HttpRequest) : body HandlerResult :=
  let '(st, tablet_id) := _check_param_id req 0 TABLET_ID_KEY in
  RETURN_IF_ERROR st ;;
  if (tablet_id =? 0)%Z then
    return_ (of_status (Status.InternalError "check param failed: missing tablet_id"))
  else
  let* tablet := get_tablet tablet_id in
  match tablet with
  | None =>
      return_ (of_status
        (Status.NotFound ("Tablet not found. tablet_id=" +:+ to_string tablet_id)))
  | Some tablet =>
      emit (GetCompactionStatus tablet) ;;
      let* json := tablet_get compaction_status "" tablet in
      return_json json
  end.

(** The loop of the table-level branch. *)
Fixpoint submit_each (tablet_vec : list Z) : M HandlerResult unit :=
  match tablet_vec with
  | [] => ret tt
  | tablet :: rest =>
      let* st := call_submit_compaction_task tablet FULL_COMPACTION false in
      RETURN_IF_ERROR st ;;
      submit_each rest
  end.

Definition _handle_run_compaction (req : HttpRequest) : body HandlerResult :=
  (* 1. param check *)
  let '(st, tablet_id, table_id) := _check_param req 0 0 in
  RETURN_IF_ERROR st ;;
  let compaction_type := param req PARAM_COMPACTION_TYPE in
  if bool_decide (compaction_type <> PARAM_COMPACTION_BASE) &&
     bool_decide (compaction_type <> PARAM_COMPACTION_CUMULATIVE) &&
     bool_decide (compaction_type <> PARAM_COMPACTION_FULL)
  then
    return_ (of_status (Status.NotSupported
      ("The compaction type '" +:+ compaction_type +:+ "' is not supported")))
  else
  let param_remote := param req PARAM_COMPACTION_REMOTE in
  let* fetch_from_remote :=
    if bool_decide (param_remote = "true") then ret true
    else if negb (bool_decide (param_remote = "")) &&
            bool_decide (param_remote <> "false")
    then
      return_ (of_status (Status.NotSupported
        ("The remote = '" +:+ param_remote +:+ "' is not supported")))
    else ret false in
  (if (tablet_id =? 0)%Z && negb (table_id =? 0)%Z then
     let* tablet_vec := get_all_tablet table_id in
     submit_each tablet_vec
   else
     (* 2. fetch the tablet by tablet_id *)
     let* tablet := get_tablet tablet_id in
     match tablet with
     | None =>
         return_ (of_status
           (Status.NotFound ("Tablet not found. tablet_id=" +:+ to_string tablet_id)))
     | Some tablet =>
         let* peer := tablet_get should_fetch_from_peer false tablet in
         if fetch_from_remote && negb peer then
           return_ (of_status (Status.NotSupported "tablet should do compaction locally"))
         else
         let* dbg := get (debug_point env DEBUG_SUBMIT_CUMU_TASK) in
         (if dbg then
            let* st := call_submit_compaction_task tablet CUMULATIVE_COMPACTION false in
            RETURN_IF_ERROR st ;;
            return_json
              (triggered_json "debug compaction task is successfully triggered. Table id: "
                 table_id tablet_id)
          else ret tt) ;;
         (* 3. execute compaction task *)
         let task := {| task_tablet := tablet;
                        task_compaction_type := compaction_type;
                        task_fetch_from_remote := fetch_from_remote |} in
         emit (ThreadDetach task) ;;
         (* 4. wait for result for 2 seconds by async *)
         let* status := call_wait_for 2 in
         if bool_decide (status = ready) then
           (* the thread has run the task; fetch execute result *)
           let* olap_status := invoke (run_task task) in
           when (negb (Status.ok olap_status)) (return_ (of_status olap_status))
         else
           (* the thread is still running the task *)
           modify (push_detached task)
     end) ;;
  return_json
    (triggered_json "compaction task is successfully triggered. Table id: "
       table_id tablet_id).

Definition _handle_run_status_compaction (req : HttpRequest) : body HandlerResult :=
  let '(st, tablet_id) := _check_param_id req 0 TABLET_ID_KEY in
  RETURN_IF_ERROR st ;;
  if (tablet_id =? 0)%Z then
    (* overall compaction status *)
    emit GetCompactionStatusJson ;;
    let* json := get (get_compaction_status_json env) in
    return_json json
  else
  (* fetch the tablet by tablet_id *)
  let* tablet := get_tablet tablet_id in
  match tablet with
  | None =>
      return_ (of_status (Status.InternalError ("fail to get " +:+ to_string tablet_id)))
  | Some tablet =>
      let msg := "compaction task for this tablet is not running" in
      let compaction_type := "" in
      let run_status := false in
      let* full := tablet_get is_full_compaction_running false tablet in
      (if full then
         let msg := "compaction task for this tablet is running" in
         let compaction_type := "full" in
         let run_status := true in
         return_json (run_status_json run_status msg tablet_id compaction_type)
       else ret tt) ;;
      (* use try lock to check this tablet is running cumulative compaction *)
      let* owns := try_to_lock tablet CumulativeLock in
      (if negb owns then
         let msg := "compaction task for this tablet is running" in
         let compaction_type := "cumulative" in
         let run_status := true in
         return_json (run_status_json run_status msg tablet_id compaction_type)
       else unlock tablet CumulativeLock) ;;
      (* use try lock to check this tablet is running base compaction *)
      let* owns := try_to_lock tablet BaseLock in
      (if negb owns then
         let msg := "compaction task for this tablet is running" in
         let compaction_type := "base" in
         let run_status := true in
         return_json (run_status_json run_status msg tablet_id compaction_type)
       else unlock tablet BaseLock) ;;
      (* not running any compaction *)
      return_json (run_status_json run_status msg tablet_id compaction_type)
  end.

(** [CompactionAction::handle] of an action built with [_compaction_type]:
    the reply handed to [HttpChannel::send_reply]. *)
Definition handle (_compaction_type : CompactionActionType) (req : HttpRequest)
    : World -> HttpReply * World :=
  fun w =>
    let '((st, json_result), w') :=
      match _compaction_type with
      | SHOW_INFO => call (_handle_show_compaction req) w
      | RUN_COMPACTION => call (_handle_run_compaction req) w
      | RUN_COMPACTION_STATUS => call (_handle_run_status_compaction req) w
      end in
    if negb (Status.ok st)
    then ({| reply_status := HTTP_OK; reply_content := to_json env st |}, w')
    else ({| reply_status := HTTP_OK; reply_content := json_result |}, w').

(** A detached thread that was still running when its handler returned
    finishes its task; nobody holds the future, the result is dropped with
    the shared state.  [None] when no thread is left. *)
Definition finish_detached (w : World) : option (Status * World) :=
  match detached w with
  | [] => None
  | task :: _ => Some (call (run_task task) (pop_detached w))
  end.

End CompactionAction.

(* ===================================================================== *)
(** ** Concrete requests, tablets and collaborators                       *)
(* ===================================================================== *)

Definition request (l : list (string * string)) : HttpRequest :=
  {| params := list_to_map l |}.

(** A tablet of table [tid], idle, compacting locally, no policy bound. *)
Definition idle_tablet (tid : Z) : Tablet :=
  {| table_id := tid;
     is_full_compaction_running := false;
     cumulative_compaction_lock := false;
     base_compaction_lock := false;
     should_fetch_from_peer := false;
     compaction_policy := "size_based";
     cumulative_compaction_policy := None;
     compaction_status := "{}" |}.

Definition world_of (ts : list (Z * Tablet)) : World :=
  {| tablets := list_to_map ts;
     base_compaction_request_failed := 0;
     cumulative_compaction_request_failed := 0;
     next_instance := 0%N;
     detached := [];
     trace := [] |}.

(** Three tablets of table 42 and one of table 7. *)
Definition small_world : World :=
  world_of [(10001, idle_tablet 42); (10002, idle_tablet 42);
            (10003, idle_tablet 42); (20001, idle_tablet 7)].

(** Collaborators that answer the same status to every call. *)
Definition constant_env (prepare execute submit : Status) (fs : future_status)
    (dbg : bool) : Collaborators :=
  {| prepare_compact := fun _ _ _ => prepare;
     execute_compact := fun _ _ _ => execute;
     submit_compaction_task := fun _ _ _ _ => submit;
     wait_for := fun _ _ => fs;
     debug_point := fun _ _ => dbg;
     get_compaction_status_json := fun _ => "{}";
     to_json := Status.msg |}.

(** Everything succeeds and the task finishes inside the wait. *)
Definition calm_env : Collaborators :=
  constant_env Status.OK_ Status.OK_ Status.OK_ ready false.

(** Tablet 10001 is running a cumulative and a base compaction. *)
Definition compacting_tablet : Tablet :=
  set_base_compaction_lock true (set_cumulative_compaction_lock true (idle_tablet 42)).

Definition compacting_world : World :=
  world_of [(10001, compacting_tablet); (10002, idle_tablet 42)].

(** Everything succeeds, but the task outlasts the wait. *)
Definition slow_env : Collaborators :=
  constant_env Status.OK_ Status.OK_ Status.OK_ timeout false.

(* ===================================================================== *)
(** ** Vocabulary of the statements                                       *)
(* ===================================================================== *)

(** [log] several events in order. *)
Definition logs (es : list Event) (w : World) : World :=
  fold_left (fun w e => log e w) es w.

(** The four answers a run-status query on a tablet can give. *)
Inductive RunStatus := RunningFull | RunningCumulative | RunningBase | NotRunning.

Definition report (tablet_id : Z) (o : RunStatus) : string :=
  match o with
  | RunningFull =>
      run_status_json true "compaction task for this tablet is running" tablet_id "full"
  | RunningCumulative =>
      run_status_json true "compaction task for this tablet is running" tablet_id
        "cumulative"
  | RunningBase =>
      run_status_json true "compaction task for this tablet is running" tablet_id "base"
  | NotRunning =>
      run_status_json false "compaction task for this tablet is not running" tablet_id ""
  end.

(** The compaction object the callback builds for a request. *)
Definition variant_of (compaction_type : string) (fetch_from_remote : bool)
    : option CompactionVariant :=
  if bool_decide (compaction_type = PARAM_COMPACTION_BASE) then Some BaseCompaction
  else if bool_decide (compaction_type = PARAM_COMPACTION_CUMULATIVE) then
    Some (if fetch_from_remote then SingleReplicaCompaction else CumulativeCompaction)
  else if bool_decide (compaction_type = PARAM_COMPACTION_FULL) then Some FullCompaction
  else None.

(** The world once the callback has created a policy object and bound it
    to a tablet that had none. *)
Definition after_policy (tablet : Z) (w : World) : World :=
  let policy :=
    {| instance := next_instance w;
       created_from := from_option compaction_policy "" (tablets w !! tablet) |} in
  if bool_decide
       (from_option cumulative_compaction_policy None (tablets w !! tablet) = None)
  then with_tablets (alter (set_cumulative_compaction_policy policy) tablet)
         (alloc_instance w)
  else alloc_instance w.

(** The counter the callback increments for a result, if any. *)
Definition counted (v : CompactionVariant) (res : Status) : option Counter :=
  match v with
  | BaseCompaction =>
      if Status.ok res || Status.is_code Status.BE_NO_SUITABLE_VERSION res
      then None else Some BaseRequestFailed
  | CumulativeCompaction =>
      if Status.ok res || Status.is_code Status.CUMULATIVE_NO_SUITABLE_VERSION res
      then None else Some CumulativeRequestFailed
  | FullCompaction | SingleReplicaCompaction => None
  end.

Definition is_compact_call (e : Event) : bool :=
  match e with
  | PrepareCompact _ _ _ | ExecuteCompact _ _ _ => true
  | _ => false
  end.

(** The events a run added to the trace. *)
Definition events_since (w w' : World) : list Event :=
  drop (length (trace w)) (trace w').

(** A manual compaction: the tablet, the kind and the remote flag the
    callback is run with. *)
Definition Run : Type := Z * string * bool.

(** The world after the callback has run for each of [runs] in turn. *)
Definition run_callbacks (env : Collaborators) (runs : list Run) (w : World) : World :=
  fold_left
    (fun w '(tablet, compaction_type, fetch_from_remote) =>
       (call (_execute_compaction_callback env tablet compaction_type
                fetch_from_remote) w).2)
    runs w.

(** One of the three no-suitable-version codes. *)
Definition is_no_suitable_version (res : Status) : bool :=
  Status.is_code Status.BE_NO_SUITABLE_VERSION res
  || Status.is_code Status.CUMULATIVE_NO_SUITABLE_VERSION res
  || Status.is_code Status.FULL_NO_SUITABLE_VERSION res.

(** Failure counting as the specification words it: a no-suitable-version
    result leaves the counters alone and every other failure increments
    one of them. *)
Definition counts_every_other_failure (env : Collaborators) (tablet : Z)
    (compaction_type : string) (fetch_from_remote : bool) (w : World) : Prop :=
  let '(res, w') :=
    call (_execute_compaction_callback env tablet compaction_type fetch_from_remote) w in
  (is_no_suitable_version res = true -> forall c, counter c w' = counter c w)
  /\ (Status.ok res = false -> is_no_suitable_version res = false ->
      exists c, counter c w' = counter c w + 1).

(** The handler an action of the given type runs. *)
Definition handler_of (env : Collaborators) (ctype : CompactionActionType)
    (req : HttpRequest) : body HandlerResult :=
  match ctype with
  | SHOW_INFO => _handle_show_compaction req
  | RUN_COMPACTION => _handle_run_compaction env req
  | RUN_COMPACTION_STATUS => _handle_run_status_compaction env req
  end.

(** A parameter that is present and makes [std::stoull] throw. *)
Definition unparseable (s : string) : Prop :=
  s <> "" /\ exists e, Stoull.stoull s = inl e.

(** The tablets [get_all_tablet] returns for a table, in its order. *)
Definition matching (tid : Z) (w : World) : list Z :=
  (filter (fun kv => table_id kv.2 = tid) (map_to_list (tablets w))).*1.

(** The submissions of the table-level loop for a vector of tablets. *)
Definition submissions (tablet_vec : list Z) : list Event :=
  (fun tablet => SubmitCompactionTask tablet FULL_COMPACTION false) <$> tablet_vec.

(** Collaborators whose engine refuses the task of one tablet and accepts
    every other. *)
Definition refusing_env (refused : Z) : Collaborators :=
  {| prepare_compact := fun _ _ _ => Status.OK_;
     execute_compact := fun _ _ _ => Status.OK_;
     submit_compaction_task := fun tablet _ _ _ =>
       if (tablet =? refused)%Z
       then Status.InternalError "thread pool is full"
       else Status.OK_;
     wait_for := fun _ _ => ready;
     debug_point := fun _ _ => false;
     get_compaction_status_json := fun _ => "{}";
     to_json := Status.msg |}.

(** The rejection of an unsupported kind or remote flag as the
    specification words it: a not-supported error, the world untouched. *)
Definition rejects_as_not_supported (env : Collaborators) (req : HttpRequest)
    (w : World) : Prop :=
  param req PARAM_COMPACTION_TYPE ∉
    [PARAM_COMPACTION_BASE; PARAM_COMPACTION_CUMULATIVE; PARAM_COMPACTION_FULL]
  \/ param req PARAM_COMPACTION_REMOTE ∉ ["true"; "false"; ""] ->
  exists st, Status.code st = Status.NOT_SUPPORTED
             /\ call (_handle_run_compaction env req) w = ((st, ""), w).

(** The rejection of an unparseable id as the specification words it, for
    a request to any of the three actions. *)
Definition rejects_unparseable_ids (env : Collaborators)
    (ctype : CompactionActionType) (req : HttpRequest) (w : World) : Prop :=
  unparseable (param req TABLET_ID_KEY) \/ unparseable (param req TABLE_ID_KEY) ->
  exists st, Status.ok st = false
             /\ call (handler_of env ctype req) w = ((st, ""), w).

(** The fan-out as the specification words it: every tablet of the table
    gets its submission. *)
Definition submits_to_every_match (env : Collaborators) (req : HttpRequest)
    (tid : Z) (w : World) : Prop :=
  forall tablet,
    tablet ∈ matching tid w ->
    SubmitCompactionTask tablet FULL_COMPACTION false
      ∈ trace (call (_handle_run_compaction env req) w).2.

(* ===================================================================== *)
(** ** Vocabulary of the further statements                               *)
(* ===================================================================== *)

(** Events of a status request: a tablet lookup, a status read, a probe of
    a compaction mutex or its release. *)
Definition is_inspection (e : Event) : bool :=
  match e with
  | GetTablet _ | GetCompactionStatus _ | GetCompactionStatusJson
  | TryLock _ _ _ | Unlock _ _ => true
  | _ => false
  end.

(** A request that names no tablet: [tablet_id] is absent or reads as 0. *)
Definition names_no_tablet (req : HttpRequest) : Prop :=
  param req TABLET_ID_KEY = "" \/ Stoull.stoull (param req TABLET_ID_KEY) = inr 0.

(** A kind and a remote flag the run handler accepts. *)
Definition supported (req : HttpRequest) : Prop :=
  param req PARAM_COMPACTION_TYPE ∈
    [PARAM_COMPACTION_BASE; PARAM_COMPACTION_CUMULATIVE; PARAM_COMPACTION_FULL]
  /\ param req PARAM_COMPACTION_REMOTE ∈ ["true"; "false"; ""].

(* ===================================================================== *)
(** ** Number data types                                                  *)
(* ===================================================================== *)

(** [vec/data_types/data_type_number_base.h]: the part of the data type
    interface shared by the number types. *)
Module DataTypeNumberBase.

(** The template parameter [T].  The eight types the class tells apart,
    and [OtherNumber] for any further type that passes [IsNumber<T>]. *)
Inductive NumberType :=
| UInt8 | Int8 | Int16 | Int32 | Int64 | Int128 | Float32 | Float64
| OtherNumber (name : string).

(** The values of [PrimitiveType] the class returns. *)
Inductive PrimitiveType :=
| TYPE_BOOLEAN | TYPE_TINYINT | TYPE_SMALLINT | TYPE_INT | TYPE_BIGINT
| TYPE_LARGEINT | TYPE_FLOAT | TYPE_DOUBLE.

(** The values of [doris::FieldType] the class returns. *)
Inductive FieldType :=
| OLAP_FIELD_TYPE_BOOL | OLAP_FIELD_TYPE_TINYINT | OLAP_FIELD_TYPE_SMALLINT
| OLAP_FIELD_TYPE_INT | OLAP_FIELD_TYPE_BIGINT | OLAP_FIELD_TYPE_LARGEINT
| OLAP_FIELD_TYPE_FLOAT | OLAP_FIELD_TYPE_DOUBLE.


#[global] Instance NumberType_eq_dec : EqDecision NumberType.
Proof. solve_decision. Defined.
#[global] Instance PrimitiveType_eq_dec : EqDecision PrimitiveType.
Proof. solve_decision. Defined.
#[global] Instance FieldType_eq_dec : EqDecision FieldType.
Proof. solve_decision. Defined.



Definition INT_MAX : Z := 2 ^ 31 - 1.

(** [static_cast<UInt32>(n)] on a [size_t]. *)
Definition to_UInt32 (n : Z) : Z := n mod 2 ^ 32.

(** The two arrays of a [ColumnString] the batch conversion writes: the
    bytes of all strings and, per row, the 32-bit end offset. *)
Record ColumnString := {
  chars : list Byte.byte;
  offsets : list Z
}.

Section ToStringBatch.

(** The value type of the column. *)
Context {T : Type}.

(** [Derived::push_number(chars, num)], which the derived type supplies:
    the bytes of [chars] once the number has been pushed. *)
Context (push_number : list Byte.byte -> T -> list Byte.byte).

(** What [offsets.resize(size)] leaves in the entries it adds: the array
    does not initialise them. *)
Context (indeterminate : Z).

(** The rows [row_num], [row_num + 1], ... of the [for] loop, [n] of them
    left.  [None] stands for a [get_element] past the end of the column. *)
Fixpoint rows (is_const : bool) (col_vec : list T) (n row_num : nat)
    (chars : list Byte.byte) (offsets : list Z)
    : option (list Byte.byte * list Z) :=
  match n with
  | O => Some (chars, offsets)
  | S n' =>
      match col_vec !! (if is_const then 0 else row_num)%nat with
      | None => None
      | Some num =>
          let chars := push_number chars num in
          (* push_number can check the chars is over uint32 so use
             static_cast here. *)
          let offsets :=
            <[row_num := to_UInt32 (Z.of_nat (length chars))]> offsets in
          rows is_const col_vec n' (S row_num) chars offsets
      end
  end.

(** [_to_string_batch_impl<Derived, is_const>(column_ptr, column_to)] on
    the elements [col_vec] of the column vector.  The loop counter is an
    [int]: with more than [INT_MAX] rows its increment overflows, which is
    [None] here as well.  [chars.reserve] changes no content. *)
Definition _to_string_batch_impl (is_const : bool) (col_vec : list T)
    (column_to : ColumnString) : option ColumnString :=
  let size := length col_vec in
  let offsets := resize size indeterminate (offsets column_to) in
  if (INT_MAX <? Z.of_nat size)%Z then None
  else
    match rows is_const col_vec size 0 (chars column_to) offsets with
    | Some (chars, offsets) => Some {| chars := chars; offsets := offsets |}
    | None => None
    end.

(** [to_string_batch_impl<Derived>(column, column_to)], on what
    [unpack_if_const] made of the column: its elements and whether it was a
    constant column. *)
Definition to_string_batch_impl (unpacked : list T * bool)
    (column_to : ColumnString) : option ColumnString :=
  let '(column_ptr, is_const) := unpacked in
  if is_const then _to_string_batch_impl true column_ptr column_to
  else _to_string_batch_impl false column_ptr column_to.

End ToStringBatch.

End DataTypeNumberBase.

(** The numbers the batch conversion pushes for a column vector: in
    constant mode its first element for every row, else its elements. *)
Definition pushed {T} (is_const : bool) (col_vec : list T) : list T :=
  if is_const
  then match col_vec with
       | [] => []
       | num :: _ => replicate (length col_vec) num
       end
  else col_vec.

(** The bytes after pushing a list of numbers in turn. *)
Definition push_all {T} (push_number : list Byte.byte -> T -> list Byte.byte)
    (nums : list T) (chars : list Byte.byte) : list Byte.byte :=
  fold_left push_number nums chars.

(** A [push_number] that appends the text of the number. *)
Definition appends {T} (push_number : list Byte.byte -> T -> list Byte.byte)
    (text : T -> list Byte.byte) : Prop :=
  forall chars num, push_number chars num = chars ++ text num.

(** The end offsets the batch conversion writes for the numbers pushed:
    after each one, the length of the bytes so far, cut to 32 bits. *)
Definition batch_offsets {T} (push_number : list Byte.byte -> T -> list Byte.byte)
    (nums : list T) (chars : list Byte.byte) : list Z :=
  (fun i : nat =>
     DataTypeNumberBase.to_UInt32
       (Z.of_nat (length (push_all push_number (take (S i) nums) chars))))
  <$> seq 0 (length nums).

(** The bytes of row [i] of a string column that held [before] bytes when
    the conversion began: from the end offset of the row above (from
    [before] for the first row) to its own end offset. *)
Definition row_bytes (before : nat) (column : DataTypeNumberBase.ColumnString)
    (i : nat) : list Byte.byte :=
  let start :=
    match i with
    | O => Z.of_nat before
    | S j => default 0 (DataTypeNumberBase.offsets column !! j)
    end in
  let stop := default 0 (DataTypeNumberBase.offsets column !! i) in
  take (Z.to_nat (stop - start))
    (drop (Z.to_nat start) (DataTypeNumberBase.chars column)).

(** The answer of a run-status query for a tablet in a given state. *)
Definition priority_answer (t : Tablet) : RunStatus :=
  if is_full_compaction_running t then RunningFull
  else if negb (try_lock (cumulative_compaction_lock t)).1 then RunningCumulative
  else if negb (try_lock (base_compaction_lock t)).1 then RunningBase
  else NotRunning.

(** A [push_number] for unsigned numbers: the decimal digits, appended. *)
Definition decimal_text (n : Z) : list Byte.byte :=
  list_byte_of_string (to_string n).

Definition push_decimal (chars : list Byte.byte) (n : Z) : list Byte.byte :=
  chars ++ decimal_text n.

Definition empty_column : DataTypeNumberBase.ColumnString :=
  {| DataTypeNumberBase.chars := []; DataTypeNumberBase.offsets := [] |}.

(** The fault-injection point is active and the engine accepts. *)
Definition debug_env : Collaborators :=
  constant_env Status.OK_ Status.OK_ Status.OK_ ready true.

(* ===================================================================== *)
(** ** Reasoning support                                                  *)
(* ===================================================================== *)

#[local] Arguments run_status_json : simpl never.
#[local] Arguments triggered_json : simpl never.
#[local] Arguments to_string : simpl never.
#[local] Arguments Stoull.stoull : simpl never.

(** Unfold the monad down to functions on the world. *)
Ltac run :=
  unfold call, invoke, bind, ret, return_, return_json, get, modify, emit, when,
    RETURN_IF_ERROR, of_status, Handler_returns, Status_returns in *.

Ltac exec := run; run; cbn.

Lemma trace_logs es w : trace (logs es w) = trace w ++ es.
Proof.
  revert w; induction es as [|e es IH]; intros w; simpl.
  - by rewrite app_nil_r.
  - rewrite IH. simpl. by rewrite <- app_assoc.
Qed.

Lemma tablets_logs es w : tablets (logs es w) = tablets w.
Proof. revert w; induction es as [|e es IH]; intros w; simpl; [done|by rewrite IH]. Qed.

Lemma detached_logs es w : detached (logs es w) = detached w.
Proof. revert w; induction es as [|e es IH]; intros w; simpl; [done|by rewrite IH]. Qed.

Lemma counter_logs c es w : counter c (logs es w) = counter c w.
Proof.
  revert w; induction es as [|e es IH]; intros w; simpl; [done|].
  rewrite IH. by destruct c.
Qed.

Lemma logs_app es1 es2 w : logs (es1 ++ es2) w = logs es2 (logs es1 w).
Proof. unfold logs. by rewrite fold_left_app. Qed.

Lemma stoull_empty : Stoull.stoull "" = inl Stoull.invalid_argument.
Proof. reflexivity. Qed.

Lemma stoull_inr_nonempty s v : Stoull.stoull s = inr v -> s <> "".
Proof. intros H ->. by rewrite stoull_empty in H. Qed.

Lemma check_param_id_parsed req id name v :
  Stoull.stoull (param req name) = inr v ->
  _check_param_id req id name = (Status.OK_, v).
Proof.
  intros H. unfold _check_param_id.
  rewrite bool_decide_eq_false_2 by (by eapply stoull_inr_nonempty).
  simpl. by rewrite H.
Qed.

Lemma check_param_id_throws req id name e :
  param req name <> "" ->
  Stoull.stoull (param req name) = inl e ->
  _check_param_id req id name =
    (Status.InternalError ("convert " +:+ name +:+ " failed, " +:+ Stoull.what e), id).
Proof.
  intros Hne H. unfold _check_param_id.
  rewrite bool_decide_eq_false_2 by done. simpl. by rewrite H.
Qed.

(** Releasing a mutex that was free before it was taken restores the
    tablet. *)
Lemma set_lock_restore l t :
  get_lock l t = false -> set_lock l false (set_lock l true t) = t.
Proof. destruct l, t; simpl; by intros ->. Qed.

Lemma with_tablets_restore l tablet t w :
  tablets w !! tablet = Some t ->
  get_lock l t = false ->
  alter (set_lock l false) tablet (alter (set_lock l true) tablet (tablets w))
  = tablets w.
Proof.
  intros Ht Hl. apply map_eq; intros k.
  destruct (decide (k = tablet)) as [->|Hne].
  - rewrite !lookup_alter_eq, Ht. simpl. by rewrite set_lock_restore.
  - by rewrite !lookup_alter_ne.
Qed.

(* ===================================================================== *)
(** ** The string functions on examples                                   *)
(* ===================================================================== *)

Example stoull_plain : Stoull.stoull "10086" = inr 10086.
Proof. reflexivity. Qed.

Example stoull_trailing : Stoull.stoull " 42abc" = inr 42.
Proof. reflexivity. Qed.

Example stoull_minus_one : Stoull.stoull "-1" = inr ULLONG_MAX.
Proof. reflexivity. Qed.

Example stoull_letters : Stoull.stoull "abc" = inl Stoull.invalid_argument.
Proof. reflexivity. Qed.

Example stoull_too_big :
  Stoull.stoull "18446744073709551616" = inl Stoull.out_of_range.
Proof. reflexivity. Qed.

Example substitute_two :
  Substitute.substitute "a=$0, b=$1$$"
    [Substitute.ArgBool true; Substitute.ArgUInt64 7] = "a=true, b=7$".
Proof. reflexivity. Qed.

(* ===================================================================== *)
(** ** Run-status queries                                                 *)
(* ===================================================================== *)

Lemma append_cancel_l (s a b : string) : s +:+ a = s +:+ b -> a = b.
Proof. induction s as [|c s IH]; simpl; [done|]. intros [= H]. auto. Qed.

(** Different answers are different replies. *)
Lemma report_inj tablet_id o1 o2 : report tablet_id o1 = report tablet_id o2 -> o1 = o2.
Proof.
  unfold report, run_status_json.
  destruct o1, o2; try done; cbn; intros H;
    repeat (injection H as H); try discriminate;
    apply append_cancel_l in H; discriminate.
Qed.

(** C1. A run-status query that names an existing tablet answers by the
    fixed priority Full > Cumulative > Base: full when the tablet's
    full-compaction flag is set; otherwise cumulative when the try-lock of
    the cumulative mutex fails; otherwise base when the try-lock of the base
    mutex fails; otherwise not running, with the empty kind.  The handler
    returns OK, and the reply is exactly one of the four answers. *)
Theorem run_status_priority (env : Collaborators) (req : HttpRequest) (w : World)
    (tablet_id : Z) (t : Tablet) :
  Stoull.stoull (param req TABLET_ID_KEY) = inr tablet_id ->
  tablet_id <> 0 ->
  tablets w !! tablet_id = Some t ->
  let answer :=
    if is_full_compaction_running t then RunningFull
    else if negb (try_lock (cumulative_compaction_lock t)).1 then RunningCumulative
    else if negb (try_lock (base_compaction_lock t)).1 then RunningBase
    else NotRunning in
  (call (_handle_run_status_compaction env req) w).1 = (Status.OK_, report tablet_id answer)
  /\ (forall o, (call (_handle_run_status_compaction env req) w).1
                = (Status.OK_, report tablet_id o) -> o = answer).
Proof.
  intros Hparse Hnz Ht answer.
  assert (Hres : (call (_handle_run_status_compaction env req) w).1
                 = (Status.OK_, report tablet_id answer)).
  { unfold _handle_run_status_compaction.
    rewrite (check_param_id_parsed _ _ _ _ Hparse).
    apply Z.eqb_neq in Hnz. subst answer.
    unfold get_tablet, try_to_lock, unlock, tablet_get, try_lock. run.
    destruct (is_full_compaction_running t) eqn:Hfull,
             (cumulative_compaction_lock t) eqn:Hcumu,
             (base_compaction_lock t) eqn:Hbase;
      repeat (progress (cbn; rewrite ?Hnz, ?lookup_alter_eq, ?Ht, ?Hfull, ?Hcumu, ?Hbase));
      done. }
  split; [exact Hres|].
  intros o Ho. rewrite Hres in Ho. injection Ho as Ho.
  symmetry. by eapply report_inj.
Qed.

Lemma set_lock_held l t : get_lock l t = true -> set_lock l true t = t.
Proof. destruct l, t; simpl; by intros ->. Qed.

Lemma alter_lock_held l tablet t (m : gmap Z Tablet) :
  m !! tablet = Some t ->
  get_lock l t = true ->
  alter (set_lock l true) tablet m = m.
Proof.
  intros Ht Hl. apply map_eq; intros k.
  destruct (decide (k = tablet)) as [->|Hne].
  - rewrite lookup_alter_eq, Ht. simpl. by rewrite set_lock_held.
  - by rewrite lookup_alter_ne.
Qed.

(** A run-status query probes the mutexes without keeping them: every
    tablet is left as it was. *)
Lemma run_status_leaves_tablets (env : Collaborators) (req : HttpRequest) (w : World) :
  tablets (call (_handle_run_status_compaction env req) w).2 = tablets w.
Proof.
  unfold _handle_run_status_compaction.
  destruct (_check_param_id req 0 TABLET_ID_KEY) as [st tablet_id].
  unfold get_tablet, try_to_lock, unlock, tablet_get, try_lock. exec.
  destruct (Status.ok st); cbn; [|done].
  destruct (tablet_id =? 0)%Z; cbn; [done|].
  destruct (tablets w !! tablet_id) as [t|] eqn:Ht; cbn; [|done].
  rewrite Ht. cbn.
  destruct (is_full_compaction_running t); cbn; [done|].
  rewrite Ht. cbn.
  destruct (cumulative_compaction_lock t) eqn:Hc; cbn.
  { by apply (alter_lock_held CumulativeLock _ t). }
  rewrite (with_tablets_restore CumulativeLock _ t) by done.
  rewrite Ht. cbn.
  destruct (base_compaction_lock t) eqn:Hb; cbn.
  { rewrite (with_tablets_restore CumulativeLock _ t) by done.
    by apply (alter_lock_held BaseLock _ t). }
  rewrite (with_tablets_restore CumulativeLock _ t) by done.
  by rewrite (with_tablets_restore BaseLock _ t).
Qed.

(* ===================================================================== *)
(** ** The callback                                                       *)
(* ===================================================================== *)

Lemma do_compact_eq env v tablet w :
  call (do_compact env v tablet) w =
    let p := prepare_compact env v tablet w in
    let w1 := log (PrepareCompact v tablet p) w in
    if Status.ok p then
      let e := execute_compact env v tablet w1 in
      (e, log (ExecuteCompact v tablet e) w1)
    else (p, w1).
Proof.
  unfold do_compact, call_prepare_compact, call_execute_compact. run. cbn.
  destruct (Status.ok _); reflexivity.
Qed.

Lemma callback_eq env tablet compaction_type fetch_from_remote w :
  call (_execute_compaction_callback env tablet compaction_type fetch_from_remote) w =
    match variant_of compaction_type fetch_from_remote with
    | None => (Status.OK_, after_policy tablet w)
    | Some v =>
        let '(res, w1) := call (do_compact env v tablet) (after_policy tablet w) in
        (res,
         match counted v res with
         | Some c => add_counter c 1 (log (Increment c) w1)
         | None => w1
         end)
    end.
Proof.
  unfold _execute_compaction_callback, variant_of, after_policy.
  unfold create_cumulative_compaction_policy, tablet_get, increment.
  generalize (do_compact env); intros dc.
  exec.
  destruct (bool_decide (compaction_type = PARAM_COMPACTION_BASE)),
           (bool_decide (compaction_type = PARAM_COMPACTION_CUMULATIVE)),
           (bool_decide (compaction_type = PARAM_COMPACTION_FULL)),
           fetch_from_remote,
           (bool_decide (from_option cumulative_compaction_policy None
                           (tablets w !! tablet) = None));
    cbn; try reflexivity;
    match goal with
    | |- context [dc ?v tablet ?w0] => destruct (dc v tablet w0) as [[res|[]] w1]
    end; cbn; try reflexivity;
    match goal with
    | |- context [Status.ok ?r] => destruct (Status.ok r)
    end; cbn; try reflexivity;
    match goal with
    | |- context [Status.is_code ?c ?r] => destruct (Status.is_code c r)
    end; reflexivity.
Qed.

Lemma trace_after_policy tablet w : trace (after_policy tablet w) = trace w.
Proof. unfold after_policy. by case_bool_decide. Qed.

Lemma counter_after_policy c tablet w : counter c (after_policy tablet w) = counter c w.
Proof. unfold after_policy. case_bool_decide; by destruct c. Qed.

Lemma events_since_app w w' es : trace w' = trace w ++ es -> events_since w w' = es.
Proof. unfold events_since. intros ->. by rewrite drop_app_length. Qed.

(** The callback touches tablets only when it binds the policy. *)
Lemma callback_tablets env tablet compaction_type fetch_from_remote w :
  tablets (call (_execute_compaction_callback env tablet compaction_type
                   fetch_from_remote) w).2
  = tablets (after_policy tablet w).
Proof.
  rewrite callback_eq. destruct (variant_of _ _) as [v|]; [|done].
  rewrite do_compact_eq. cbn.
  destruct (Status.ok _); cbn; destruct (counted _ _); reflexivity.
Qed.

(** The policy a tablet is left with once the callback has run for it. *)
Lemma after_policy_bound tablet t w :
  tablets w !! tablet = Some t ->
  cumulative_compaction_policy <$> tablets (after_policy tablet w) !! tablet =
    Some (Some (default {| instance := next_instance w;
                           created_from := compaction_policy t |}
                  (cumulative_compaction_policy t))).
Proof.
  intros Ht. unfold after_policy. rewrite Ht. cbn.
  case_bool_decide as Hp; cbn.
  - rewrite lookup_alter_eq, Ht. cbn. by rewrite Hp.
  - rewrite Ht. cbn. by destruct (cumulative_compaction_policy t).
Qed.

(** A bound policy survives the callback, whatever tablet it runs for. *)
Lemma after_policy_keeps other tablet t p w :
  tablets w !! tablet = Some t ->
  cumulative_compaction_policy t = Some p ->
  exists t', tablets (after_policy other w) !! tablet = Some t'
             /\ cumulative_compaction_policy t' = Some p.
Proof.
  intros Ht Hp. unfold after_policy.
  case_bool_decide as Hb; cbn; [|eauto].
  destruct (decide (other = tablet)) as [->|Hne].
  - rewrite Ht in Hb. cbn in Hb. congruence.
  - rewrite lookup_alter_ne by done. eauto.
Qed.

Lemma variant_of_base r : variant_of PARAM_COMPACTION_BASE r = Some BaseCompaction.
Proof. reflexivity. Qed.

Lemma variant_of_cumulative r :
  variant_of PARAM_COMPACTION_CUMULATIVE r =
    Some (if r then SingleReplicaCompaction else CumulativeCompaction).
Proof. reflexivity. Qed.

Lemma variant_of_full r : variant_of PARAM_COMPACTION_FULL r = Some FullCompaction.
Proof. reflexivity. Qed.

(** C6. The callback runs every compaction through [do_compact], which
    invokes [execute_compact] only when [prepare_compact] returned OK: a
    failed prepare is the result and no execute call is made.  In the trace
    of the callback the compaction calls are the prepare call, followed by
    the execute call exactly when prepare succeeded. *)
Theorem execute_only_after_prepare (env : Collaborators) (tablet : Z)
    (compaction_type : string) (fetch_from_remote : bool)
    (v : CompactionVariant) (w : World) :
  call (do_compact env v tablet) w =
    (let p := prepare_compact env v tablet w in
     let w1 := log (PrepareCompact v tablet p) w in
     if Status.ok p
     then (let e := execute_compact env v tablet w1 in
           (e, log (ExecuteCompact v tablet e) w1))
     else (p, w1))
  /\ (let r := call (_execute_compaction_callback env tablet compaction_type
                       fetch_from_remote) w in
      match variant_of compaction_type fetch_from_remote with
      | None => filter is_compact_call (events_since w r.2) = []
      | Some v' =>
          let p := prepare_compact env v' tablet (after_policy tablet w) in
          filter is_compact_call (events_since w r.2) =
            PrepareCompact v' tablet p
            :: (if Status.ok p then [ExecuteCompact v' tablet r.1] else [])
          /\ (if Status.ok p then True else r.1 = p)
      end).
Proof.
  split; [apply do_compact_eq|].
  cbn zeta. rewrite callback_eq.
  destruct (variant_of compaction_type fetch_from_remote) as [v'|]; cbn.
  - rewrite do_compact_eq. cbn zeta.
    destruct (Status.ok (prepare_compact env v' tablet (after_policy tablet w))) eqn:Hp;
      cbn -[counted]; (split; [|done]);
      destruct (counted v' _); cbn;
      (erewrite events_since_app;
       [|cbn; rewrite trace_after_policy, <- ?app_assoc; reflexivity]);
      reflexivity.
  - erewrite events_since_app; [|rewrite trace_after_policy, app_nil_r]; done.
Qed.

(** C2, as the code has it.  A base compaction increments the base counter
    exactly when its result is a failure other than
    [BE_NO_SUITABLE_VERSION]; a local cumulative compaction increments the
    cumulative counter exactly when its result is a failure other than
    [CUMULATIVE_NO_SUITABLE_VERSION]; a remote-fetch cumulative compaction
    and a full compaction increment no counter, whatever their result. *)
Theorem failure_counting (env : Collaborators) (tablet : Z) (w : World) :
  (forall fetch_from_remote,
     let r := call (_execute_compaction_callback env tablet PARAM_COMPACTION_BASE
                      fetch_from_remote) w in
     counter BaseRequestFailed r.2 =
       counter BaseRequestFailed w +
       (if Status.ok r.1 || Status.is_code Status.BE_NO_SUITABLE_VERSION r.1
        then 0 else 1)
     /\ counter CumulativeRequestFailed r.2 = counter CumulativeRequestFailed w)
  /\ (let r := call (_execute_compaction_callback env tablet
                       PARAM_COMPACTION_CUMULATIVE false) w in
      counter CumulativeRequestFailed r.2 =
        counter CumulativeRequestFailed w +
        (if Status.ok r.1 || Status.is_code Status.CUMULATIVE_NO_SUITABLE_VERSION r.1
         then 0 else 1)
      /\ counter BaseRequestFailed r.2 = counter BaseRequestFailed w)
  /\ (let r := call (_execute_compaction_callback env tablet
                       PARAM_COMPACTION_CUMULATIVE true) w in
      forall c, counter c r.2 = counter c w)
  /\ (forall fetch_from_remote,
        let r := call (_execute_compaction_callback env tablet PARAM_COMPACTION_FULL
                         fetch_from_remote) w in
        forall c, counter c r.2 = counter c w).
Proof.
  pose proof (counter_after_policy BaseRequestFailed tablet w) as Hb.
  pose proof (counter_after_policy CumulativeRequestFailed tablet w) as Hc.
  cbn in Hb, Hc.
  cbv zeta; repeat split; intros; rewrite callback_eq;
    rewrite ?variant_of_base, ?variant_of_cumulative, ?variant_of_full;
    rewrite do_compact_eq; cbn -[after_policy];
    destruct (Status.ok (prepare_compact _ _ _ _)); cbn -[after_policy];
    try match goal with
    | |- context [Status.ok ?r] => destruct (Status.ok r)
    end; cbn -[after_policy];
    try match goal with
    | |- context [Status.is_code ?c ?r] => destruct (Status.is_code c r)
    end; cbn -[after_policy];
    try match goal with c : Counter |- _ => destruct c end; cbn -[after_policy];
    lia.
Qed.

(** C2, counterexample.  A full compaction whose merge fails with an
    internal error leaves both failure counters where they were. *)
Lemma full_failure_not_counted :
  ~ counts_every_other_failure
      (constant_env Status.OK_ (Status.InternalError "merge failed") Status.OK_
         ready false)
      10001 PARAM_COMPACTION_FULL false small_world.
Proof.
  intros [_ H]. destruct (H eq_refl eq_refl) as [c Hc].
  destruct c; vm_compute in Hc; discriminate.
Qed.

Lemma run_callbacks_keep env runs : forall w tablet t p,
  tablets w !! tablet = Some t ->
  cumulative_compaction_policy t = Some p ->
  exists t', tablets (run_callbacks env runs w) !! tablet = Some t'
             /\ cumulative_compaction_policy t' = Some p.
Proof.
  induction runs as [|[[other compaction_type] fetch_from_remote] runs IH];
    intros w tablet t p Ht Hp; cbn.
  - eauto.
  - destruct (after_policy_keeps other tablet t p w Ht Hp) as (t1 & Ht1 & Hp1).
    eapply (IH _ tablet t1 p); [|exact Hp1].
    by rewrite callback_tablets.
Qed.

(** C8. The callback binds the policy object it has just created from the
    tablet's metadata only when the tablet has no policy: a tablet with a
    policy keeps that very object, a tablet without one gets the new
    object.  Whatever manual compactions run afterwards, on this tablet or
    on others, the tablet keeps the object it was left with. *)
Theorem policy_bound_once (env : Collaborators) (tablet : Z) (t : Tablet)
    (compaction_type : string) (fetch_from_remote : bool) (w : World) :
  tablets w !! tablet = Some t ->
  let w' := (call (_execute_compaction_callback env tablet compaction_type
                     fetch_from_remote) w).2 in
  let created := {| instance := next_instance w;
                    created_from := compaction_policy t |} in
  let bound :=
    match cumulative_compaction_policy t with
    | Some p => p
    | None => created
    end in
  cumulative_compaction_policy <$> tablets w' !! tablet = Some (Some bound)
  /\ forall runs,
       cumulative_compaction_policy <$> tablets (run_callbacks env runs w') !! tablet
       = Some (Some bound).
Proof.
  intros Ht w' created bound.
  assert (H1 : cumulative_compaction_policy <$> tablets w' !! tablet
               = Some (Some bound)).
  { subst w'. rewrite callback_tablets, (after_policy_bound _ _ _ Ht).
    subst bound created. by destruct (cumulative_compaction_policy t). }
  split; [exact H1|].
  intros runs.
  destruct (tablets w' !! tablet) as [t1|] eqn:Ht1; [|discriminate].
  cbn in H1. injection H1 as H1.
  destruct (run_callbacks_keep env runs w' tablet t1 bound Ht1 H1) as (t2 & -> & Hp2).
  cbn. by rewrite Hp2.
Qed.

(* ===================================================================== *)
(** ** Triggering a compaction                                            *)
(* ===================================================================== *)

Lemma check_param_both req tablet_id table_id :
  param req TABLET_ID_KEY <> "" -> param req TABLE_ID_KEY <> "" ->
  _check_param req tablet_id table_id =
    (Status.InternalError "tablet id and table id can not be set at the same time!",
     tablet_id, table_id).
Proof.
  intros H1 H2. unfold _check_param.
  by rewrite !bool_decide_eq_false_2 by done.
Qed.

Lemma check_param_neither req tablet_id table_id :
  param req TABLET_ID_KEY = "" -> param req TABLE_ID_KEY = "" ->
  _check_param req tablet_id table_id =
    (Status.InternalError "tablet id and table id can not be empty at the same time!",
     tablet_id, table_id).
Proof.
  intros H1 H2. unfold _check_param.
  by rewrite !bool_decide_eq_true_2 by done.
Qed.

Lemma check_param_tablet req tablet_id table_id v :
  param req TABLE_ID_KEY = "" ->
  Stoull.stoull (param req TABLET_ID_KEY) = inr v ->
  _check_param req tablet_id table_id = (Status.OK_, v, table_id).
Proof.
  intros H1 H2. unfold _check_param.
  rewrite bool_decide_eq_false_2 by (by eapply stoull_inr_nonempty).
  rewrite bool_decide_eq_true_2 by done. by rewrite H2.
Qed.

Lemma check_param_table req tablet_id table_id v :
  param req TABLET_ID_KEY = "" ->
  Stoull.stoull (param req TABLE_ID_KEY) = inr v ->
  _check_param req tablet_id table_id = (Status.OK_, tablet_id, v).
Proof.
  intros H1 H2. unfold _check_param.
  rewrite bool_decide_eq_true_2 by done.
  rewrite bool_decide_eq_false_2 by (by eapply stoull_inr_nonempty).
  by rewrite H2.
Qed.

(** Whatever [_check_param] answers, a failure of it ends the handler at
    once. *)
Lemma run_compaction_check_failed env req w :
  Status.ok (_check_param req 0 0).1.1 = false ->
  call (_handle_run_compaction env req) w = (((_check_param req 0 0).1.1, ""), w).
Proof.
  unfold _handle_run_compaction.
  destruct (_check_param req 0 0) as [[st tablet_id] table_id]; cbn.
  intros Hst. do 2 run. by rewrite Hst.
Qed.

(** C5. A single-tablet trigger that passes validation, with the
    fault-injection point inactive, hands the task to a detached thread and
    waits on its future with a bound of 2 seconds.  When the wait reports
    the task finished, the task's result decides the handler's: a failure
    is returned as it is, a success gives the triggered reply.  Otherwise
    the handler returns the triggered reply whatever the task will yield,
    and the thread stays among the detached ones, where it later runs the
    task to its result. *)
Theorem single_tablet_trigger_waits (env : Collaborators) (req : HttpRequest)
    (w : World) (tablet_id : Z) (t : Tablet) :
  param req TABLE_ID_KEY = "" ->
  Stoull.stoull (param req TABLET_ID_KEY) = inr tablet_id ->
  param req PARAM_COMPACTION_TYPE ∈
    [PARAM_COMPACTION_BASE; PARAM_COMPACTION_CUMULATIVE; PARAM_COMPACTION_FULL] ->
  param req PARAM_COMPACTION_REMOTE ∈ ["true"; "false"; ""] ->
  tablets w !! tablet_id = Some t ->
  (param req PARAM_COMPACTION_REMOTE = "true" -> should_fetch_from_peer t = true) ->
  debug_point env DEBUG_SUBMIT_CUMU_TASK (log (GetTablet tablet_id) w) = false ->
  let task := {| task_tablet := tablet_id;
                 task_compaction_type := param req PARAM_COMPACTION_TYPE;
                 task_fetch_from_remote :=
                   bool_decide (param req PARAM_COMPACTION_REMOTE = "true") |} in
  let w1 := log (ThreadDetach task) (log (GetTablet tablet_id) w) in
  let w2 := log (WaitFor 2) w1 in
  let triggered :=
    (Status.OK_,
     triggered_json "compaction task is successfully triggered. Table id: "
       0 tablet_id) in
  call (_handle_run_compaction env req) w =
    (if bool_decide (wait_for env 2 w1 = ready) then
       let r := call (run_task env task) w2 in
       (if Status.ok r.1 then triggered else (r.1, ""), r.2)
     else (triggered, push_detached task w2))
  /\ (wait_for env 2 w1 <> ready ->
      let w' := (call (_handle_run_compaction env req) w).2 in
      detached w' = detached w ++ [task]
      /\ (detached w = [] ->
          finish_detached env w' = Some (call (run_task env task) w2))).
Proof.
  intros Htable Htablet Htype Hremote Ht Hpeer Hdbg task w1 w2 triggered.
  assert (Hcall : call (_handle_run_compaction env req) w =
                    (if bool_decide (wait_for env 2 w1 = ready) then
                       let r := call (run_task env task) w2 in
                       (if Status.ok r.1 then triggered else (r.1, ""), r.2)
                     else (triggered, push_detached task w2))).
  { unfold _handle_run_compaction.
    rewrite (check_param_tablet _ _ _ _ Htable Htablet).
    assert (Hty : bool_decide (param req PARAM_COMPACTION_TYPE <> PARAM_COMPACTION_BASE)
                  && bool_decide (param req PARAM_COMPACTION_TYPE
                                  <> PARAM_COMPACTION_CUMULATIVE)
                  && bool_decide (param req PARAM_COMPACTION_TYPE
                                  <> PARAM_COMPACTION_FULL) = false).
    { rewrite !elem_of_cons, elem_of_nil in Htype.
      destruct Htype as [->|[->|[->|[]]]]; reflexivity. }
    rewrite Hty. clear Hty.
    assert (Hrm : negb (bool_decide (param req PARAM_COMPACTION_REMOTE = ""))
                  && bool_decide (param req PARAM_COMPACTION_REMOTE <> "false")
                  = negb (bool_decide (param req PARAM_COMPACTION_REMOTE = "")
                          || bool_decide (param req PARAM_COMPACTION_REMOTE = "false"))).
    { repeat case_bool_decide; done. }
    rewrite Hrm. clear Hrm.
    subst triggered w2 w1 task.
    generalize (run_task env). intros rt.
    unfold get_tablet, tablet_get, call_wait_for, call_submit_compaction_task.
    exec.
    destruct (bool_decide (param req PARAM_COMPACTION_REMOTE = "true")) eqn:Htrue; cbn.
    + apply bool_decide_eq_true_1 in Htrue. specialize (Hpeer Htrue).
      repeat (progress (cbn; rewrite ?andb_false_r, ?Ht, ?Hpeer, ?Hdbg)).
      destruct (bool_decide (wait_for env 2 _ = ready)); cbn; [|done].
      destruct (rt _ _) as [[res|[]] w3]; cbn.
      destruct (Status.ok res); done.
    + assert (Hfe : bool_decide (param req PARAM_COMPACTION_REMOTE = "")
                    || bool_decide (param req PARAM_COMPACTION_REMOTE = "false")
                    = true).
      { apply bool_decide_eq_false_1 in Htrue.
        rewrite !elem_of_cons, elem_of_nil in Hremote.
        destruct Hremote as [H|[->|[->|[]]]]; [done|reflexivity..]. }
      rewrite Hfe.
      repeat (progress (cbn; rewrite ?andb_false_r, ?Ht, ?Hdbg)).
      destruct (bool_decide (wait_for env 2 _ = ready)); cbn; [|done].
      destruct (rt _ _) as [[res|[]] w3]; cbn.
      destruct (Status.ok res); done. }
  split; [exact Hcall|].
  intros Hwait. cbv zeta. rewrite Hcall, bool_decide_eq_false_2 by done.
  split; [done|].
  intros Hd. unfold finish_detached. cbn. rewrite Hd. cbn.
  do 2 f_equal. subst w2 w1. destruct w; cbn in *. by subst.
Qed.

Lemma unsupported_type_false s :
  s ∉ [PARAM_COMPACTION_BASE; PARAM_COMPACTION_CUMULATIVE; PARAM_COMPACTION_FULL] ->
  bool_decide (s <> PARAM_COMPACTION_BASE)
  && bool_decide (s <> PARAM_COMPACTION_CUMULATIVE)
  && bool_decide (s <> PARAM_COMPACTION_FULL) = true.
Proof.
  rewrite !not_elem_of_cons. intros (H1 & H2 & H3 & _).
  by rewrite !bool_decide_eq_true_2 by done.
Qed.

Lemma unsupported_remote_false s :
  s ∉ ["true"; "false"; ""] ->
  bool_decide (s = "true") = false
  /\ negb (bool_decide (s = "")) && bool_decide (s <> "false") = true.
Proof.
  rewrite !not_elem_of_cons. intros (H1 & H2 & H3 & _).
  rewrite (bool_decide_eq_false_2 (s = "true")) by done.
  rewrite (bool_decide_eq_false_2 (s = "")) by done.
  by rewrite bool_decide_eq_true_2 by done.
Qed.

(** A run request with an unsupported kind or remote flag never gets past
    the parameter checks. *)
Lemma run_compaction_unsupported (env : Collaborators) (req : HttpRequest)
    (w : World) :
  param req PARAM_COMPACTION_TYPE ∉
    [PARAM_COMPACTION_BASE; PARAM_COMPACTION_CUMULATIVE; PARAM_COMPACTION_FULL]
  \/ param req PARAM_COMPACTION_REMOTE ∉ ["true"; "false"; ""] ->
  exists st,
    call (_handle_run_compaction env req) w = ((st, ""), w)
    /\ Status.ok st = false
    /\ (if Status.ok (_check_param req 0 0).1.1
        then Status.code st = Status.NOT_SUPPORTED
        else st = (_check_param req 0 0).1.1).
Proof.
  intros Hbad.
  destruct (Status.ok (_check_param req 0 0).1.1) eqn:Hck.
  - unfold _handle_run_compaction.
    destruct (_check_param req 0 0) as [[st0 tablet_id] table_id]. cbn in Hck.
    destruct (decide (param req PARAM_COMPACTION_TYPE ∈
                [PARAM_COMPACTION_BASE; PARAM_COMPACTION_CUMULATIVE;
                 PARAM_COMPACTION_FULL])) as [Hty|Hty].
    + destruct Hbad as [Hbad|Hbad]; [done|].
      assert (Hf : bool_decide (param req PARAM_COMPACTION_TYPE <> PARAM_COMPACTION_BASE)
                   && bool_decide (param req PARAM_COMPACTION_TYPE
                                   <> PARAM_COMPACTION_CUMULATIVE)
                   && bool_decide (param req PARAM_COMPACTION_TYPE
                                   <> PARAM_COMPACTION_FULL) = false).
      { rewrite !elem_of_cons, elem_of_nil in Hty.
        destruct Hty as [->|[->|[->|[]]]]; reflexivity. }
      destruct (unsupported_remote_false _ Hbad) as [Hr1 Hr2].
      eexists. do 2 run. rewrite Hck, Hf, Hr1, Hr2. cbn. eauto.
    + eexists. do 2 run. rewrite Hck, (unsupported_type_false _ Hty). cbn. eauto.
  - exists (_check_param req 0 0).1.1.
    rewrite run_compaction_check_failed by done. eauto.
Qed.

(** C7, as the code has it.  A run request whose compaction kind is none
    of base, cumulative and full, or whose remote flag is none of true,
    false and empty, is rejected with the world untouched: no tablet looked
    up, no lock tried, no task submitted or started.  The id check runs
    first: when it passes the error is a not-supported one, when it fails
    the error is the id check's own. *)
Theorem unsupported_parameter_rejected (env : Collaborators) (req : HttpRequest)
    (w : World) :
  param req PARAM_COMPACTION_TYPE ∉
    [PARAM_COMPACTION_BASE; PARAM_COMPACTION_CUMULATIVE; PARAM_COMPACTION_FULL]
  \/ param req PARAM_COMPACTION_REMOTE ∉ ["true"; "false"; ""] ->
  exists st,
    call (_handle_run_compaction env req) w = ((st, ""), w)
    /\ Status.ok st = false
    /\ (if Status.ok (_check_param req 0 0).1.1
        then Status.code st = Status.NOT_SUPPORTED
        else st = (_check_param req 0 0).1.1).
Proof. apply run_compaction_unsupported. Qed.

(** C7, counterexample.  A request with an unsupported kind and no id is
    turned down by the id check, with an internal error. *)
Lemma missing_id_reported_first :
  ~ rejects_as_not_supported calm_env (request [("compact_type", "merge")]) small_world.
Proof.
  intros H. destruct H as (st & Hcode & Hcall).
  - left. rewrite !not_elem_of_cons. repeat split; try discriminate. apply not_elem_of_nil.
  - vm_compute in Hcall. injection Hcall as <-. discriminate.
Qed.

(** C4. A run request with both ids, and one with neither, ends in the
    id check's error with the world untouched.  A request with remote=true
    that names a tablet whose replication role does not allow fetching from
    a peer is rejected, and the handler has at most looked the tablet up:
    no lock tried, no task submitted or started. *)
Theorem run_compaction_validation (env : Collaborators) (req : HttpRequest)
    (w : World) :
  (param req TABLET_ID_KEY <> "" -> param req TABLE_ID_KEY <> "" ->
   call (_handle_run_compaction env req) w =
     ((Status.InternalError "tablet id and table id can not be set at the same time!",
       ""), w))
  /\ (param req TABLET_ID_KEY = "" -> param req TABLE_ID_KEY = "" ->
      call (_handle_run_compaction env req) w =
        ((Status.InternalError
            "tablet id and table id can not be empty at the same time!", ""), w))
  /\ (forall tablet_id t,
        param req PARAM_COMPACTION_REMOTE = "true" ->
        Stoull.stoull (param req TABLET_ID_KEY) = inr tablet_id ->
        tablets w !! tablet_id = Some t ->
        should_fetch_from_peer t = false ->
        exists st,
          Status.ok st = false
          /\ (call (_handle_run_compaction env req) w = ((st, ""), w)
              \/ st = Status.NotSupported "tablet should do compaction locally"
                 /\ call (_handle_run_compaction env req) w
                    = ((st, ""), log (GetTablet tablet_id) w))).
Proof.
  split; [|split].
  - intros H1 H2. rewrite run_compaction_check_failed;
      by rewrite (check_param_both _ _ _ H1 H2).
  - intros H1 H2. rewrite run_compaction_check_failed;
      by rewrite (check_param_neither _ _ _ H1 H2).
  - intros tablet_id t Hremote Htablet Ht Hpeer.
    destruct (decide (param req TABLE_ID_KEY = "")) as [Htable|Htable].
    + destruct (decide (param req PARAM_COMPACTION_TYPE ∈
                  [PARAM_COMPACTION_BASE; PARAM_COMPACTION_CUMULATIVE;
                   PARAM_COMPACTION_FULL])) as [Hty|Hty].
      * exists (Status.NotSupported "tablet should do compaction locally").
        split; [done|]. right. split; [done|].
        unfold _handle_run_compaction.
        rewrite (check_param_tablet _ _ _ _ Htable Htablet).
        assert (Hf : bool_decide (param req PARAM_COMPACTION_TYPE
                                  <> PARAM_COMPACTION_BASE)
                     && bool_decide (param req PARAM_COMPACTION_TYPE
                                     <> PARAM_COMPACTION_CUMULATIVE)
                     && bool_decide (param req PARAM_COMPACTION_TYPE
                                     <> PARAM_COMPACTION_FULL) = false).
        { rewrite !elem_of_cons, elem_of_nil in Hty.
          destruct Hty as [->|[->|[->|[]]]]; reflexivity. }
        rewrite Hf, Hremote. rewrite (bool_decide_eq_true_2 ("true" = "true")) by done.
        unfold get_tablet, tablet_get. do 2 run.
        repeat (progress (cbn; rewrite ?andb_false_r, ?Ht, ?Hpeer)). done.
      * destruct (run_compaction_unsupported env req w (or_introl Hty))
          as (st & Hcall & Hok & _).
        exists st. eauto.
    + exists (Status.InternalError
                "tablet id and table id can not be set at the same time!").
      split; [done|]. left.
      rewrite run_compaction_check_failed;
        by rewrite (check_param_both _ _ _ (stoull_inr_nonempty _ _ Htablet) Htable).
Qed.

Lemma check_param_unparseable req tablet_id table_id :
  unparseable (param req TABLET_ID_KEY) \/ unparseable (param req TABLE_ID_KEY) ->
  Status.ok (_check_param req tablet_id table_id).1.1 = false.
Proof.
  unfold unparseable, _check_param.
  intros [[Hne [e He]]|[Hne [e He]]];
    repeat case_bool_decide; try done; rewrite ?He; try done;
    by destruct (Stoull.stoull _).
Qed.

Lemma check_param_id_unparseable req id name :
  unparseable (param req name) ->
  Status.ok (_check_param_id req id name).1 = false.
Proof.
  intros [Hne [e He]]. by rewrite (check_param_id_throws _ _ _ _ Hne He).
Qed.

(** C9, as the code has it.  Both overloads of the parameter check return
    an error when an id they read is present and [std::stoull] throws on
    it.  A run request with such a [tablet_id] or [table_id], and a show or
    run-status request with such a [tablet_id], is rejected with the world
    untouched: no tablet looked up, no task submitted. *)
Theorem unparseable_id_rejected (env : Collaborators)
    (ctype : CompactionActionType) (req : HttpRequest) (w : World) :
  (forall id name,
     unparseable (param req name) ->
     Status.ok (_check_param_id req id name).1 = false)
  /\ (forall tablet_id table_id,
        unparseable (param req TABLET_ID_KEY) \/ unparseable (param req TABLE_ID_KEY) ->
        Status.ok (_check_param req tablet_id table_id).1.1 = false)
  /\ (unparseable (param req TABLET_ID_KEY)
      \/ ctype = RUN_COMPACTION /\ unparseable (param req TABLE_ID_KEY) ->
      exists st,
        Status.ok st = false
        /\ call (handler_of env ctype req) w = ((st, ""), w)).
Proof.
  split; [|split].
  - intros id name. apply check_param_id_unparseable.
  - intros tablet_id table_id. apply check_param_unparseable.
  - intros H.
    assert (Hrun : unparseable (param req TABLET_ID_KEY)
                   \/ unparseable (param req TABLE_ID_KEY) ->
                   exists st, Status.ok st = false
                     /\ call (_handle_run_compaction env req) w = ((st, ""), w)).
    { intros Hu. exists (_check_param req 0 0).1.1.
      pose proof (check_param_unparseable req 0 0 Hu) as Hck.
      split; [done|]. by apply run_compaction_check_failed. }
    destruct H as [Htablet|[-> Htable]]; [|by apply Hrun; right].
    destruct ctype; cbn; [| by apply Hrun; left |].
    + destruct Htablet as [Hne [e He]].
      eexists. unfold _handle_show_compaction.
      rewrite (check_param_id_throws _ _ _ _ Hne He). exec.
      split; [|reflexivity]; done.
    + destruct Htablet as [Hne [e He]].
      eexists. unfold _handle_run_status_compaction.
      rewrite (check_param_id_throws _ _ _ _ Hne He). exec.
      split; [|reflexivity]; done.
Qed.

(** C9, counterexample.  A show request with a good [tablet_id] and a
    [table_id] that is not a number is served: the tablet is looked up and
    its status returned. *)
Lemma show_ignores_table_id :
  ~ rejects_unparseable_ids calm_env SHOW_INFO
      (request [("tablet_id", "10001"); ("table_id", "abc")]) small_world.
Proof.
  intros H. destruct H as (st & Hok & Hcall).
  - right. split; [discriminate|]. eexists. reflexivity.
  - vm_compute in Hcall. injection Hcall as <- _ _. discriminate.
Qed.

(** C10. Whatever the action type, the request and the outcome of the
    handler, the reply is sent with HTTP status OK; its body is the
    handler's JSON on success and the JSON form of the failed status
    otherwise. *)
Theorem reply_is_always_ok (env : Collaborators) (ctype : CompactionActionType)
    (req : HttpRequest) (w : World) :
  let r := call (handler_of env ctype req) w in
  handle env ctype req w =
    ({| reply_status := HTTP_OK;
        reply_content := if Status.ok r.1.1 then r.1.2 else to_json env r.1.1 |},
     r.2)
  /\ reply_status (handle env ctype req w).1 = HTTP_OK.
Proof.
  cbv zeta. unfold handle, handler_of.
  destruct ctype;
    match goal with
    | |- context [call ?h w] => destruct (call h w) as [[st json] w']
    end; cbn; destruct (Status.ok st); done.
Qed.

Lemma supported_remote_not_true s :
  s ∈ ["true"; "false"; ""] ->
  bool_decide (s = "true") = false ->
  negb (bool_decide (s = "")) && bool_decide (s <> "false") = false.
Proof.
  rewrite !elem_of_cons, elem_of_nil.
  intros [->|[->|[->|[]]]]; [discriminate|reflexivity..].
Qed.

(** The table-level loop submits in order and stops at the first refusal. *)
Lemma submit_each_stops env tablet_vec : forall (n : nat) w,
  (forall (i : nat) x, (i < n)%nat -> tablet_vec !! i = Some x ->
     Status.ok (submit_compaction_task env x FULL_COMPACTION false
                  (logs (submissions (take i tablet_vec)) w)) = true) ->
  (forall x, tablet_vec !! n = Some x ->
     Status.ok (submit_compaction_task env x FULL_COMPACTION false
                  (logs (submissions (take n tablet_vec)) w)) = false) ->
  submit_each env tablet_vec w =
    (match tablet_vec !! n with
     | Some x =>
         inl (submit_compaction_task env x FULL_COMPACTION false
                (logs (submissions (take n tablet_vec)) w), "")
     | None => inr tt
     end,
     logs (submissions (take (S n) tablet_vec)) w).
Proof.
  induction tablet_vec as [|x rest IH]; intros n w Hok Hfail.
  - by rewrite lookup_nil.
  - cbn [submit_each]. unfold call_submit_compaction_task. exec.
    destruct n as [|n].
    + pose proof (Hfail x eq_refl) as H0. cbn in H0. by rewrite H0.
    + pose proof (Hok 0%nat x ltac:(lia) eq_refl) as H0. cbn in H0. rewrite H0. cbn.
      rewrite (IH n).
      * reflexivity.
      * intros i y Hi Hy. apply (Hok (S i) y); [lia|done].
      * intros y Hy. by apply (Hfail y).
Qed.

(** C3, as the code has it.  A table-level trigger (no tablet id, a table
    id that is not 0, a supported kind and remote flag) asks the tablet
    manager for the tablets of the table and submits a full compaction for
    each in turn, up to and including the first one the engine refuses.
    That refusal is the handler's result and the tablets after it get no
    submission.  When no submission is refused all of them are made, and
    the handler returns the triggered reply without waiting for any. *)
Theorem fan_out_stops_at_first_failure (env : Collaborators) (req : HttpRequest)
    (w : World) (tid : Z) (n : nat) :
  param req TABLET_ID_KEY = "" ->
  Stoull.stoull (param req TABLE_ID_KEY) = inr tid ->
  tid <> 0 ->
  param req PARAM_COMPACTION_TYPE ∈
    [PARAM_COMPACTION_BASE; PARAM_COMPACTION_CUMULATIVE; PARAM_COMPACTION_FULL] ->
  param req PARAM_COMPACTION_REMOTE ∈ ["true"; "false"; ""] ->
  let tablet_vec := matching tid w in
  let before (i : nat) :=
    logs (submissions (take i tablet_vec)) (log (GetAllTablet tid) w) in
  (forall (i : nat) x, (i < n)%nat -> tablet_vec !! i = Some x ->
     Status.ok (submit_compaction_task env x FULL_COMPACTION false (before i)) = true) ->
  (forall x, tablet_vec !! n = Some x ->
     Status.ok (submit_compaction_task env x FULL_COMPACTION false (before n)) = false) ->
  call (_handle_run_compaction env req) w =
    (match tablet_vec !! n with
     | Some x => (submit_compaction_task env x FULL_COMPACTION false (before n), "")
     | None =>
         (Status.OK_,
          triggered_json "compaction task is successfully triggered. Table id: " tid 0)
     end,
     before (S n)).
Proof.
  intros Htablet Htable Hnz Htype Hremote tablet_vec before Hok Hfail.
  unfold _handle_run_compaction.
  rewrite (check_param_table _ _ _ _ Htablet Htable).
  assert (Hty : bool_decide (param req PARAM_COMPACTION_TYPE <> PARAM_COMPACTION_BASE)
                && bool_decide (param req PARAM_COMPACTION_TYPE
                                <> PARAM_COMPACTION_CUMULATIVE)
                && bool_decide (param req PARAM_COMPACTION_TYPE
                                <> PARAM_COMPACTION_FULL) = false).
  { rewrite !elem_of_cons, elem_of_nil in Htype.
    destruct Htype as [->|[->|[->|[]]]]; reflexivity. }
  rewrite Hty. clear Hty.
  apply Z.eqb_neq in Hnz.
  pose proof (submit_each_stops env tablet_vec n (log (GetAllTablet tid) w) Hok Hfail)
    as Hloop.
  unfold get_all_tablet. exec. rewrite Hnz. cbn.
  fold (matching tid w). fold tablet_vec.
  destruct (bool_decide (param req PARAM_COMPACTION_REMOTE = "true")) eqn:Htrue;
    [|rewrite (supported_remote_not_true _ Hremote Htrue)];
    cbn; fold (matching tid w); fold tablet_vec;
    rewrite Hloop; destruct (tablet_vec !! n); reflexivity.
Qed.

(** C3, counterexample.  The engine refuses the task of the second of the
    three tablets of table 42: the handler returns the refusal and the third
    tablet never gets a submission. *)
Lemma fan_out_skips_after_refusal :
  ~ submits_to_every_match (refusing_env 10001)
      (request [("table_id", "42"); ("compact_type", "full")]) 42 small_world.
Proof.
  intros H.
  assert (Hin : 10002 ∈ matching 42 small_world)
    by (apply list_elem_of_In; vm_compute; tauto).
  apply H in Hin. apply list_elem_of_In in Hin.
  vm_compute in Hin. intuition discriminate.
Qed.

(* ===================================================================== *)
(** ** The handlers on examples                                           *)
(* ===================================================================== *)

(** An idle tablet: both mutexes are probed and released. *)
Example run_status_idle :
  let r := call (_handle_run_status_compaction calm_env
                   (request [("tablet_id", "10001")])) small_world in
  r.1 = (Status.OK_, report 10001 NotRunning)
  /\ trace r.2 = [GetTablet 10001;
                  TryLock 10001 CumulativeLock true; Unlock 10001 CumulativeLock;
                  TryLock 10001 BaseLock true; Unlock 10001 BaseLock].
Proof. split; reflexivity. Qed.

(** A full compaction hides whatever the mutexes would say. *)
Example run_status_full_first :
  let t := {| table_id := 42;
              is_full_compaction_running := true;
              cumulative_compaction_lock := true;
              base_compaction_lock := true;
              should_fetch_from_peer := false;
              compaction_policy := "size_based";
              cumulative_compaction_policy := None;
              compaction_status := "{}" |} in
  let r := call (_handle_run_status_compaction calm_env
                   (request [("tablet_id", "10001")])) (world_of [(10001, t)]) in
  r.1 = (Status.OK_, report 10001 RunningFull) /\ trace r.2 = [GetTablet 10001].
Proof. split; reflexivity. Qed.

(** A base compaction that finishes inside the wait and fails: the failure
    is the handler's result and the base counter moves. *)
Example trigger_base_failure :
  let env := constant_env Status.OK_ (Status.InternalError "merge failed") Status.OK_
               ready false in
  let r := call (_handle_run_compaction env
                   (request [("tablet_id", "10001"); ("compact_type", "base")]))
             small_world in
  r.1 = (Status.InternalError "merge failed", "")
  /\ counter BaseRequestFailed r.2 = 1
  /\ counter CumulativeRequestFailed r.2 = 0
  /\ detached r.2 = [].
Proof. repeat split; reflexivity. Qed.

(** A base compaction with nothing to merge: the status comes back, the
    counters stay. *)
Example trigger_base_no_suitable_version :
  let nsv := Status.mk Status.BE_NO_SUITABLE_VERSION "no suitable version" in
  let env := constant_env nsv Status.OK_ Status.OK_ ready false in
  let r := call (_handle_run_compaction env
                   (request [("tablet_id", "10001"); ("compact_type", "base")]))
             small_world in
  r.1 = (nsv, "")
  /\ counter BaseRequestFailed r.2 = 0
  /\ filter is_compact_call (trace r.2) = [PrepareCompact BaseCompaction 10001 nsv].
Proof. repeat split; reflexivity. Qed.

(** Table 42 has three tablets; with a willing engine each gets its task. *)
Example trigger_table :
  let r := call (_handle_run_compaction calm_env
                   (request [("table_id", "42"); ("compact_type", "cumulative")]))
             small_world in
  r.1 = (Status.OK_,
         triggered_json "compaction task is successfully triggered. Table id: " 42 0)
  /\ trace r.2 = GetAllTablet 42 :: submissions [10003; 10001; 10002].
Proof. split; reflexivity. Qed.

(** The fault-injection point short-circuits the trigger. *)
Example trigger_debug_point :
  let env := constant_env Status.OK_ Status.OK_ Status.OK_ ready true in
  let r := call (_handle_run_compaction env
                   (request [("tablet_id", "10001"); ("compact_type", "base")]))
             small_world in
  r.1 = (Status.OK_,
         triggered_json "debug compaction task is successfully triggered. Table id: "
           0 10001)
  /\ trace r.2 = [GetTablet 10001;
                  SubmitCompactionTask 10001 CUMULATIVE_COMPACTION false].
Proof. split; reflexivity. Qed.

(* ===================================================================== *)
(** ** The theorems at concrete requests                                  *)
(* ===================================================================== *)

(** Tablet 10001 holds both mutexes: the answer is cumulative. *)
Lemma run_status_priority_witness :
  (call (_handle_run_status_compaction calm_env (request [("tablet_id", "10001")]))
     compacting_world).1
  = (Status.OK_, report 10001 RunningCumulative).
Proof.
  apply (run_status_priority calm_env (request [("tablet_id", "10001")])
           compacting_world 10001 compacting_tablet);
    [reflexivity | discriminate | reflexivity].
Defined.

(** The engine refuses tablet 10001, the second of table 42. *)
Lemma fan_out_stops_at_first_failure_witness :
  call (_handle_run_compaction (refusing_env 10001)
          (request [("table_id", "42"); ("compact_type", "full")])) small_world
  = ((Status.InternalError "thread pool is full", ""),
     logs [GetAllTablet 42;
           SubmitCompactionTask 10003 FULL_COMPACTION false;
           SubmitCompactionTask 10001 FULL_COMPACTION false] small_world).
Proof.
  apply (fan_out_stops_at_first_failure (refusing_env 10001)
           (request [("table_id", "42"); ("compact_type", "full")])
           small_world 42 1).
  - reflexivity.
  - reflexivity.
  - discriminate.
  - apply list_elem_of_In. vm_compute. tauto.
  - apply list_elem_of_In. vm_compute. tauto.
  - intros i x Hi Hx. assert (i = 0%nat) as -> by lia.
    vm_compute in Hx. injection Hx as <-. reflexivity.
  - intros x Hx. vm_compute in Hx. injection Hx as <-. reflexivity.
Defined.

(** Both ids, no id, and remote=true on a tablet that compacts locally. *)
Lemma run_compaction_validation_witness :
  call (_handle_run_compaction calm_env
          (request [("tablet_id", "10001"); ("table_id", "42")])) small_world
  = ((Status.InternalError "tablet id and table id can not be set at the same time!",
      ""), small_world)
  /\ call (_handle_run_compaction calm_env (request [])) small_world
     = ((Status.InternalError
           "tablet id and table id can not be empty at the same time!", ""),
        small_world)
  /\ exists st,
       Status.ok st = false
       /\ (call (_handle_run_compaction calm_env
                   (request [("tablet_id", "10001"); ("compact_type", "cumulative");
                             ("remote", "true")])) small_world
           = ((st, ""), small_world)
           \/ st = Status.NotSupported "tablet should do compaction locally"
              /\ call (_handle_run_compaction calm_env
                         (request [("tablet_id", "10001");
                                   ("compact_type", "cumulative");
                                   ("remote", "true")])) small_world
                 = ((st, ""), log (GetTablet 10001) small_world)).
Proof.
  split; [|split].
  - apply (proj1 (run_compaction_validation calm_env
                    (request [("tablet_id", "10001"); ("table_id", "42")])
                    small_world)); discriminate.
  - apply (proj1 (proj2 (run_compaction_validation calm_env (request [])
                           small_world))); reflexivity.
  - apply (proj2 (proj2 (run_compaction_validation calm_env
                           (request [("tablet_id", "10001");
                                     ("compact_type", "cumulative");
                                     ("remote", "true")])
                           small_world)) 10001 (idle_tablet 42)); reflexivity.
Defined.

(** The task outlasts the wait: the trigger is reported successful. *)
Lemma single_tablet_trigger_waits_witness :
  (call (_handle_run_compaction slow_env
           (request [("tablet_id", "10001"); ("compact_type", "base")]))
     small_world).1
  = (Status.OK_,
     triggered_json "compaction task is successfully triggered. Table id: " 0 10001).
Proof.
  rewrite (proj1 (single_tablet_trigger_waits slow_env
                    (request [("tablet_id", "10001"); ("compact_type", "base")])
                    small_world 10001 (idle_tablet 42)
                    eq_refl eq_refl
                    ltac:(apply list_elem_of_In; vm_compute; tauto)
                    ltac:(apply list_elem_of_In; vm_compute; tauto)
                    eq_refl ltac:(discriminate) eq_refl)).
  reflexivity.
Defined.

(** An unknown kind on an otherwise good request. *)
Lemma unsupported_parameter_rejected_witness :
  exists st,
    call (_handle_run_compaction calm_env
            (request [("tablet_id", "10001"); ("compact_type", "merge")])) small_world
    = ((st, ""), small_world)
    /\ Status.ok st = false
    /\ Status.code st = Status.NOT_SUPPORTED.
Proof.
  destruct (unsupported_parameter_rejected calm_env
              (request [("tablet_id", "10001"); ("compact_type", "merge")])
              small_world) as (st & Hcall & Hok & Hcode).
  - left. rewrite !not_elem_of_cons.
    repeat split; try discriminate. apply not_elem_of_nil.
  - exists st. auto.
Defined.

(** The first manual compaction of tablet 10001 binds a fresh policy. *)
Lemma policy_bound_once_witness :
  cumulative_compaction_policy <$>
    tablets (call (_execute_compaction_callback calm_env 10001
                     PARAM_COMPACTION_CUMULATIVE false) small_world).2 !! 10001
  = Some (Some {| instance := 0%N; created_from := "size_based" |}).
Proof.
  apply (policy_bound_once calm_env 10001 (idle_tablet 42)
           PARAM_COMPACTION_CUMULATIVE false small_world).
  reflexivity.
Defined.

(** A table id that is not a number. *)
Lemma unparseable_id_rejected_witness :
  exists st,
    Status.ok st = false
    /\ call (handler_of calm_env RUN_COMPACTION (request [("table_id", "abc")]))
         small_world
       = ((st, ""), small_world).
Proof.
  apply (proj2 (proj2 (unparseable_id_rejected calm_env RUN_COMPACTION
                         (request [("table_id", "abc")]) small_world))).
  right. split; [reflexivity|].
  split; [discriminate|]. exists Stoull.invalid_argument. reflexivity.
Defined.

(* ===================================================================== *)
(** ** Further properties of the handlers                                 *)
(* ===================================================================== *)

Lemma check_param_id_absent req id name :
  param req name = "" -> _check_param_id req id name = (Status.OK_, id).
Proof. intros H. unfold _check_param_id. by rewrite H. Qed.

Lemma check_param_id_names_no_tablet req :
  names_no_tablet req -> _check_param_id req 0 TABLET_ID_KEY = (Status.OK_, 0).
Proof.
  intros [H|H]; [by apply check_param_id_absent|by apply check_param_id_parsed].
Qed.

Lemma supported_type req :
  supported req ->
  bool_decide (param req PARAM_COMPACTION_TYPE <> PARAM_COMPACTION_BASE)
  && bool_decide (param req PARAM_COMPACTION_TYPE <> PARAM_COMPACTION_CUMULATIVE)
  && bool_decide (param req PARAM_COMPACTION_TYPE <> PARAM_COMPACTION_FULL) = false.
Proof.
  intros [Hty _]. rewrite !elem_of_cons, elem_of_nil in Hty.
  destruct Hty as [->|[->|[->|[]]]]; reflexivity.
Qed.

(** What the remote flag of a supported request reads as. *)
Lemma supported_remote req :
  supported req ->
  (if bool_decide (param req PARAM_COMPACTION_REMOTE = "true")
   then @ret HandlerResult bool true
   else if negb (bool_decide (param req PARAM_COMPACTION_REMOTE = ""))
           && bool_decide (param req PARAM_COMPACTION_REMOTE <> "false")
        then return_ (of_status (Status.NotSupported
               ("The remote = '" +:+ param req PARAM_COMPACTION_REMOTE
                +:+ "' is not supported")))
        else ret false)
  = ret (bool_decide (param req PARAM_COMPACTION_REMOTE = "true")).
Proof.
  intros [_ Hr].
  destruct (bool_decide (param req PARAM_COMPACTION_REMOTE = "true")) eqn:Htrue;
    [done|].
  by rewrite (supported_remote_not_true _ Hr Htrue).
Qed.

(** X1. A show request that names no tablet (no [tablet_id], or one that
    reads as 0) is turned down with the missing-id error before the tablet
    manager is asked anything. *)
Theorem show_needs_tablet_id (req : HttpRequest) (w : World) :
  names_no_tablet req ->
  call (_handle_show_compaction req) w =
    ((Status.InternalError "check param failed: missing tablet_id", ""), w).
Proof.
  intros H. unfold _handle_show_compaction.
  rewrite (check_param_id_names_no_tablet _ H). reflexivity.
Qed.

(** X2. A show request for tablet [tablet_id] asks the tablet manager once:
    an unknown tablet gives a not-found error, a known one gives OK with the
    tablet's compaction status.  Nothing but the trace changes. *)
Theorem show_looks_tablet_up (req : HttpRequest) (w : World) (tablet_id : Z) :
  Stoull.stoull (param req TABLET_ID_KEY) = inr tablet_id ->
  tablet_id <> 0 ->
  call (_handle_show_compaction req) w =
    match tablets w !! tablet_id with
    | None =>
        ((Status.NotFound ("Tablet not found. tablet_id=" +:+ to_string tablet_id), ""),
         log (GetTablet tablet_id) w)
    | Some t =>
        ((Status.OK_, compaction_status t),
         logs [GetTablet tablet_id; GetCompactionStatus tablet_id] w)
    end.
Proof.
  intros Hparse Hnz. unfold _handle_show_compaction.
  rewrite (check_param_id_parsed _ _ _ _ Hparse).
  apply Z.eqb_neq in Hnz.
  unfold get_tablet, tablet_get. exec. rewrite Hnz. cbn.
  destruct (tablets w !! tablet_id) as [t|] eqn:Ht; cbn; [|done].
  by rewrite Ht.
Qed.

(** X3. A run-status request that names no tablet is the engine-wide
    query: it returns OK with the engine's status JSON and looks up no
    tablet and probes no mutex. *)
Theorem run_status_engine_wide (env : Collaborators) (req : HttpRequest) (w : World) :
  names_no_tablet req ->
  call (_handle_run_status_compaction env req) w =
    ((Status.OK_, get_compaction_status_json env (log GetCompactionStatusJson w)),
     log GetCompactionStatusJson w).
Proof.
  intros H. unfold _handle_run_status_compaction.
  rewrite (check_param_id_names_no_tablet _ H). reflexivity.
Qed.

(** X4. The three handlers disagree on an unknown tablet: show and run
    answer with a not-found error, run-status with an internal error.  Each
    has only asked the tablet manager for the tablet. *)
Theorem unknown_tablet (env : Collaborators) (req : HttpRequest) (w : World)
    (tablet_id : Z) :
  Stoull.stoull (param req TABLET_ID_KEY) = inr tablet_id ->
  tablet_id <> 0 ->
  tablets w !! tablet_id = None ->
  call (_handle_run_status_compaction env req) w =
    ((Status.InternalError ("fail to get " +:+ to_string tablet_id), ""),
     log (GetTablet tablet_id) w)
  /\ call (_handle_show_compaction req) w =
       ((Status.NotFound ("Tablet not found. tablet_id=" +:+ to_string tablet_id), ""),
        log (GetTablet tablet_id) w)
  /\ (param req TABLE_ID_KEY = "" -> supported req ->
      call (_handle_run_compaction env req) w =
        ((Status.NotFound ("Tablet not found. tablet_id=" +:+ to_string tablet_id), ""),
         log (GetTablet tablet_id) w)).
Proof.
  intros Hparse Hnz Ht. pose proof Hnz as Hnz'. apply Z.eqb_neq in Hnz'.
  split; [|split].
  - unfold _handle_run_status_compaction.
    rewrite (check_param_id_parsed _ _ _ _ Hparse).
    unfold get_tablet. exec. rewrite Hnz'. cbn. by rewrite Ht.
  - unfold _handle_show_compaction.
    rewrite (check_param_id_parsed _ _ _ _ Hparse).
    unfold get_tablet. exec. rewrite Hnz'. cbn. by rewrite Ht.
  - intros Htable Hsup. unfold _handle_run_compaction.
    rewrite (check_param_tablet _ _ _ _ Htable Hparse).
    rewrite (supported_type _ Hsup), (supported_remote _ Hsup).
    unfold get_tablet. exec. rewrite andb_false_r. cbn. by rewrite Ht.
Qed.

(** X5. A run-status request, whatever it asks and whatever the state,
    changes nothing but the trace: every mutex it took is released, the
    counters, the policies and the detached tasks stay, and the calls it
    made are lookups, status reads and mutex probes only. *)
Theorem run_status_only_inspects (env : Collaborators) (req : HttpRequest) (w : World) :
  exists es,
    (call (_handle_run_status_compaction env req) w).2 = logs es w
    /\ forallb is_inspection es = true.
Proof.
  unfold _handle_run_status_compaction.
  destruct (_check_param_id req 0 TABLET_ID_KEY) as [st tablet_id].
  unfold get_tablet, try_to_lock, unlock, tablet_get, try_lock. exec.
  destruct (Status.ok st); cbn; [|by exists []].
  destruct (tablet_id =? 0)%Z; cbn; [by exists [GetCompactionStatusJson]|].
  destruct (tablets w !! tablet_id) as [t|] eqn:Ht; cbn;
    [|by exists [GetTablet tablet_id]].
  rewrite Ht. cbn.
  destruct (is_full_compaction_running t); cbn; [by exists [GetTablet tablet_id]|].
  rewrite Ht. cbn.
  destruct (cumulative_compaction_lock t) eqn:Hc; cbn.
  { exists [GetTablet tablet_id; TryLock tablet_id CumulativeLock false].
    split; [|done]. unfold with_tablets. cbn.
    by rewrite (alter_lock_held CumulativeLock _ t). }
  rewrite (with_tablets_restore CumulativeLock _ t) by done.
  rewrite Ht. cbn.
  destruct (base_compaction_lock t) eqn:Hb; cbn.
  { exists [GetTablet tablet_id;
            TryLock tablet_id CumulativeLock true; Unlock tablet_id CumulativeLock;
            TryLock tablet_id BaseLock false].
    split; [|done]. unfold with_tablets. cbn.
    rewrite (with_tablets_restore CumulativeLock _ t) by done.
    by rewrite (alter_lock_held BaseLock _ t). }
  exists [GetTablet tablet_id;
          TryLock tablet_id CumulativeLock true; Unlock tablet_id CumulativeLock;
          TryLock tablet_id BaseLock true; Unlock tablet_id BaseLock].
  split; [|done]. unfold with_tablets. cbn.
  rewrite (with_tablets_restore CumulativeLock _ t) by done.
  by rewrite (with_tablets_restore BaseLock _ t).
Qed.

(** The loop of the table-level branch submits to a prefix of the vector,
    the whole of it when it falls through. *)
Lemma submit_each_prefix env tablet_vec : forall w,
  exists k : nat,
    (submit_each env tablet_vec w).2 = logs (submissions (take k tablet_vec)) w
    /\ (forall u, (submit_each env tablet_vec w).1 = inr u -> take k tablet_vec = tablet_vec).
Proof.
  induction tablet_vec as [|x rest IH]; intros w.
  - exists 0%nat. by split.
  - cbn [submit_each]. unfold call_submit_compaction_task. exec.
    destruct (Status.ok (submit_compaction_task env x FULL_COMPACTION false w)); cbn.
    + destruct (IH (log (SubmitCompactionTask x FULL_COMPACTION false) w))
        as (k & Hw & Hall).
      exists (S k). cbn. split; [exact Hw|].
      intros u Hu. f_equal. by eapply Hall.
    + exists 1%nat. cbn. split; [by rewrite take_0|]. intros u [=].
Qed.

(** X6. A table-level trigger only ever asks for the tablets of the table
    and submits full compactions, not forced, to a prefix of them, whatever
    kind and remote flag the request carries: it starts no thread, waits on
    nothing and runs no compaction itself.  When it reports success every
    tablet of the table has been submitted. *)
Theorem fan_out_only_submits (env : Collaborators) (req : HttpRequest) (w : World)
    (tid : Z) :
  param req TABLET_ID_KEY = "" ->
  Stoull.stoull (param req TABLE_ID_KEY) = inr tid ->
  tid <> 0 ->
  supported req ->
  exists k : nat,
    (call (_handle_run_compaction env req) w).2
    = logs (GetAllTablet tid :: submissions (take k (matching tid w))) w
    /\ (Status.ok (call (_handle_run_compaction env req) w).1.1 = true ->
        take k (matching tid w) = matching tid w).
Proof.
  intros Htablet Htable Hnz Hsup.
  unfold _handle_run_compaction.
  rewrite (check_param_table _ _ _ _ Htablet Htable).
  rewrite (supported_type _ Hsup), (supported_remote _ Hsup).
  apply Z.eqb_neq in Hnz.
  destruct (submit_each_prefix env (matching tid w) (log (GetAllTablet tid) w))
    as (k & Hw & Hall).
  exists k.
  unfold get_all_tablet. exec. rewrite Hnz. cbn.
  fold (matching tid w).
  destruct (submit_each env (matching tid w) (log (GetAllTablet tid) w))
    as [[[st json]|[]] w'] eqn:Hloop; cbn in *.
  - split; [exact Hw|].
    intros Hok. exfalso. revert Hloop Hok. clear.
    generalize (log (GetAllTablet tid) w). generalize (matching tid w).
    intros vec. induction vec as [|x rest IH]; intros w0; [discriminate|].
    cbn [submit_each]. unfold call_submit_compaction_task. exec.
    destruct (Status.ok (submit_compaction_task env x FULL_COMPACTION false w0)) eqn:Hx;
      cbn.
    + apply IH.
    + intros [= <- _ _] Hok. cbn in Hok. congruence.
  - split; [exact Hw|]. intros _. by eapply Hall.
Qed.

(** X7. A request with only a [table_id] that reads as 0 is not a
    table-level trigger: the handler asks for tablet 0 and, there being
    none, answers not found; no tablet of any table is submitted. *)
Theorem table_id_zero_is_tablet_zero (env : Collaborators) (req : HttpRequest)
    (w : World) :
  param req TABLET_ID_KEY = "" ->
  Stoull.stoull (param req TABLE_ID_KEY) = inr 0 ->
  supported req ->
  tablets w !! 0 = None ->
  call (_handle_run_compaction env req) w =
    ((Status.NotFound ("Tablet not found. tablet_id=" +:+ to_string 0), ""),
     log (GetTablet 0) w).
Proof.
  intros Htablet Htable Hsup Hnone.
  unfold _handle_run_compaction.
  rewrite (check_param_table _ _ _ _ Htablet Htable).
  rewrite (supported_type _ Hsup), (supported_remote _ Hsup).
  unfold get_tablet. exec. by rewrite Hnone.
Qed.

(** X8. With the fault-injection point active a single-tablet trigger that
    passed the checks submits one cumulative compaction, not forced, to the
    engine, whatever kind was asked for, and returns at once: the debug
    reply when the engine accepts, the engine's refusal otherwise.  No
    thread is started and nothing is waited on. *)
Theorem debug_point_short_circuits (env : Collaborators) (req : HttpRequest)
    (w : World) (tablet_id : Z) (t : Tablet) :
  param req TABLE_ID_KEY = "" ->
  Stoull.stoull (param req TABLET_ID_KEY) = inr tablet_id ->
  supported req ->
  tablets w !! tablet_id = Some t ->
  (param req PARAM_COMPACTION_REMOTE = "true" -> should_fetch_from_peer t = true) ->
  debug_point env DEBUG_SUBMIT_CUMU_TASK (log (GetTablet tablet_id) w) = true ->
  let w1 := log (GetTablet tablet_id) w in
  let st := submit_compaction_task env tablet_id CUMULATIVE_COMPACTION false w1 in
  call (_handle_run_compaction env req) w =
    ((if Status.ok st
      then (Status.OK_,
            triggered_json "debug compaction task is successfully triggered. Table id: "
              0 tablet_id)
      else (st, "")),
     log (SubmitCompactionTask tablet_id CUMULATIVE_COMPACTION false) w1).
Proof.
  intros Htable Htablet Hsup Ht Hpeer Hdbg w1 st. subst w1 st.
  unfold _handle_run_compaction.
  rewrite (check_param_tablet _ _ _ _ Htable Htablet).
  rewrite (supported_type _ Hsup), (supported_remote _ Hsup).
  generalize (run_task env). intros rt.
  unfold get_tablet, tablet_get, call_wait_for, call_submit_compaction_task. exec.
  rewrite andb_false_r. cbn. rewrite Ht. cbn. rewrite Ht. cbn.
  assert (Hgo : bool_decide (param req PARAM_COMPACTION_REMOTE = "true")
                && negb (should_fetch_from_peer t) = false).
  { case_bool_decide as Hr; [|done]. by rewrite (Hpeer Hr). }
  rewrite Hgo. cbn. rewrite Hdbg. cbn.
  destruct (Status.ok _); reflexivity.
Qed.

(* ===================================================================== *)
(** ** Further properties of the callback and of the parameter check      *)
(* ===================================================================== *)

(** X9. Handed a kind that is none of base, cumulative and full, the
    callback builds no compaction: it returns OK, calls neither prepare nor
    execute and leaves the trace and both counters as they were. *)
Theorem callback_unknown_kind (env : Collaborators) (tablet : Z)
    (compaction_type : string) (fetch_from_remote : bool) (w : World) :
  compaction_type ∉
    [PARAM_COMPACTION_BASE; PARAM_COMPACTION_CUMULATIVE; PARAM_COMPACTION_FULL] ->
  let r := call (_execute_compaction_callback env tablet compaction_type
                   fetch_from_remote) w in
  r.1 = Status.OK_
  /\ trace r.2 = trace w
  /\ forall c, counter c r.2 = counter c w.
Proof.
  rewrite !not_elem_of_cons. intros (H1 & H2 & H3 & _). cbv zeta.
  rewrite callback_eq. unfold variant_of.
  rewrite !bool_decide_eq_false_2 by done. cbn.
  split; [done|]. split; [apply trace_after_policy|].
  intros c. apply counter_after_policy.
Qed.

Lemma callback_counter_step env tablet compaction_type fetch_from_remote w :
  let w' := (call (_execute_compaction_callback env tablet compaction_type
                     fetch_from_remote) w).2 in
  counter BaseRequestFailed w <= counter BaseRequestFailed w'
  /\ counter CumulativeRequestFailed w <= counter CumulativeRequestFailed w'
  /\ counter BaseRequestFailed w' + counter CumulativeRequestFailed w'
     <= counter BaseRequestFailed w + counter CumulativeRequestFailed w + 1.
Proof.
  cbv zeta. rewrite callback_eq.
  pose proof (counter_after_policy BaseRequestFailed tablet w) as Hb.
  pose proof (counter_after_policy CumulativeRequestFailed tablet w) as Hc.
  cbn in Hb, Hc.
  destruct (variant_of compaction_type fetch_from_remote) as [v|];
    cbn -[after_policy]; [|lia].
  rewrite do_compact_eq. cbn -[after_policy counted].
  destruct (Status.ok (prepare_compact env v tablet (after_policy tablet w)));
    cbn -[after_policy counted];
    destruct (counted v _) as [[]|]; cbn -[after_policy]; lia.
Qed.

(** X10. Over any sequence of manual compactions neither failure counter
    ever goes down, and the two together grow by at most one per
    compaction run. *)
Theorem counters_only_grow (env : Collaborators) (runs : list Run) (w : World) :
  let w' := run_callbacks env runs w in
  counter BaseRequestFailed w <= counter BaseRequestFailed w'
  /\ counter CumulativeRequestFailed w <= counter CumulativeRequestFailed w'
  /\ counter BaseRequestFailed w' + counter CumulativeRequestFailed w'
     <= counter BaseRequestFailed w + counter CumulativeRequestFailed w
        + Z.of_nat (length runs).
Proof.
  cbv zeta. revert w.
  induction runs as [|[[tablet compaction_type] fetch_from_remote] runs IH]; intros w.
  - cbn. lia.
  - cbn [run_callbacks fold_left length].
    pose proof (callback_counter_step env tablet compaction_type fetch_from_remote w)
      as Hstep. cbv zeta in Hstep.
    specialize (IH (call (_execute_compaction_callback env tablet compaction_type
                            fetch_from_remote) w).2).
    unfold run_callbacks in IH. lia.
Qed.

(** X11. The id check writes at most one of its two out-parameters.  On
    success exactly one of [tablet_id] and [table_id] was supplied and that
    one holds what [std::stoull] read, the other keeps the caller's value;
    on failure both keep the caller's values. *)
Theorem check_param_out_parameters (req : HttpRequest) (tablet_id table_id : Z) :
  let r := _check_param req tablet_id table_id in
  if Status.ok r.1.1 then
    (param req TABLET_ID_KEY = "" /\ param req TABLE_ID_KEY <> ""
     /\ r.1.2 = tablet_id /\ Stoull.stoull (param req TABLE_ID_KEY) = inr r.2)
    \/ (param req TABLET_ID_KEY <> "" /\ param req TABLE_ID_KEY = ""
        /\ Stoull.stoull (param req TABLET_ID_KEY) = inr r.1.2 /\ r.2 = table_id)
  else r.1.2 = tablet_id /\ r.2 = table_id.
Proof.
  cbv zeta. unfold _check_param.
  repeat case_bool_decide; cbn; try done.
  - destruct (Stoull.stoull (param req TABLE_ID_KEY)) as [e|v] eqn:Hs; cbn; [done|].
    left. auto.
  - destruct (Stoull.stoull (param req TABLET_ID_KEY)) as [e|v] eqn:Hs; cbn; [done|].
    right. auto.
Qed.

Lemma digit_bounds c d : Stoull.digit c = Some d -> 0 <= d <= 9.
Proof.
  unfold Stoull.digit.
  destruct (_ && _)%bool eqn:H; [|discriminate].
  intros [= <-]. apply andb_true_iff in H as [H1 H2]. lia.
Qed.

Lemma digits_nonneg s : forall acc v,
  (forall a, acc = Some a -> 0 <= a) ->
  Stoull.digits s acc = Some v -> 0 <= v.
Proof.
  induction s as [|c s IH]; intros acc v Hacc; cbn.
  - intros ->. by apply Hacc.
  - destruct (Stoull.digit c) as [d|] eqn:Hd.
    + apply IH. intros a [= <-].
      pose proof (digit_bounds _ _ Hd).
      destruct acc as [a0|]; cbn; [specialize (Hacc a0 eq_refl)|]; lia.
    + intros ->. by apply Hacc.
Qed.

Lemma stoull_range s v : Stoull.stoull s = inr v -> is_uint64 v.
Proof.
  unfold Stoull.stoull, is_uint64.
  match goal with
  | |- context [let '(_, _) := ?p in _] => destruct p as [neg s2]
  end.
  destruct (Stoull.digits s2 None) as [v0|] eqn:Hd; [|discriminate].
  assert (0 <= v0) by (eapply digits_nonneg; [|exact Hd]; discriminate).
  destruct (ULLONG_MAX <? v0)%Z eqn:Hmax; [discriminate|].
  apply Z.ltb_ge in Hmax. unfold ULLONG_MAX in *.
  intros [= <-]. destruct neg; [|lia].
  pose proof (Z.mod_pos_bound (2 ^ 64 - v0) (2 ^ 64) ltac:(lia)). lia.
Qed.

(** X12. Every id the two overloads of the parameter check hand back is a
    64-bit unsigned value, a minus sign in the text included, as long as
    the caller's initial values are. *)
Theorem checked_ids_are_uint64 (req : HttpRequest) (tablet_id table_id : Z)
    (name : string) :
  is_uint64 tablet_id -> is_uint64 table_id ->
  is_uint64 (_check_param req tablet_id table_id).1.2
  /\ is_uint64 (_check_param req tablet_id table_id).2
  /\ is_uint64 (_check_param_id req tablet_id name).2.
Proof.
  intros Ha Hb. unfold _check_param, _check_param_id.
  split; [|split];
    repeat case_bool_decide; cbn; try done;
    match goal with
    | |- context [Stoull.stoull ?s] =>
        destruct (Stoull.stoull s) as [e|v] eqn:Hs; cbn; try done;
        by apply stoull_range in Hs
    end.
Qed.

(* ===================================================================== *)
(** ** Further properties: number data types                              *)
(* ===================================================================== *)


Lemma push_all_snoc {T} (push_number : list Byte.byte -> T -> list Byte.byte)
    (nums : list T) (num : T) (chars : list Byte.byte) :
  push_all push_number (nums ++ [num]) chars
  = push_number (push_all push_number nums chars) num.
Proof. unfold push_all. by rewrite fold_left_app. Qed.

(** The loop, [n] rows from [row_num] on, pushing [nums]. *)
Lemma rows_closed_form {T} (push_number : list Byte.byte -> T -> list Byte.byte)
    (is_const : bool) (col_vec : list T) :
  forall (nums : list T) (row_num : nat) (chars : list Byte.byte) (offs : list Z),
    (forall (i : nat) num, nums !! i = Some num ->
       col_vec !! (if is_const then 0 else row_num + i)%nat = Some num) ->
    (row_num + length nums <= length offs)%nat ->
    exists offs',
      DataTypeNumberBase.rows push_number is_const col_vec (length nums) row_num
        chars offs
      = Some (push_all push_number nums chars, offs')
      /\ length offs' = length offs
      /\ (forall j : nat, (j < row_num)%nat -> offs' !! j = offs !! j)
      /\ (forall i : nat, (i < length nums)%nat ->
            offs' !! (row_num + i)%nat
            = Some (DataTypeNumberBase.to_UInt32
                      (Z.of_nat (length (push_all push_number (take (S i) nums)
                                           chars))))).
Proof.
  induction nums as [|num nums IH]; intros row_num chars offs Hsel Hlen.
  - exists offs. cbn. split; [done|]. split; [done|]. split; [done|].
    intros i Hi. lia.
  - cbn [length DataTypeNumberBase.rows].
    pose proof (Hsel 0%nat num eq_refl) as H0.
    rewrite Nat.add_0_r in H0. rewrite H0.
    cbn [length] in Hlen.
    destruct (IH (S row_num) (push_number chars num)
                (<[row_num :=
                     DataTypeNumberBase.to_UInt32
                       (Z.of_nat (length (push_number chars num)))]> offs))
      as (offs' & Hrows & Hl & Hlow & Hrow).
    { intros i x Hx. specialize (Hsel (S i) x Hx).
      destruct is_const; [done|]. by rewrite <- Nat.add_succ_comm in Hsel. }
    { rewrite length_insert. lia. }
    exists offs'. split; [exact Hrows|]. split; [by rewrite Hl, length_insert|].
    split.
    + intros j Hj. rewrite Hlow by lia. apply list_lookup_insert_ne. lia.
    + intros i Hi. destruct i as [|i].
      * rewrite Nat.add_0_r, Hlow by lia.
        rewrite list_lookup_insert_eq by lia. reflexivity.
      * rewrite <- Nat.add_succ_comm. rewrite Hrow by lia. reflexivity.
Qed.

Lemma pushed_length {T} (is_const : bool) (col_vec : list T) :
  length (pushed is_const col_vec) = length col_vec.
Proof.
  unfold pushed. destruct is_const, col_vec; cbn; try done.
  by rewrite length_replicate.
Qed.

Lemma pushed_selects {T} (is_const : bool) (col_vec : list T) (i : nat) (num : T) :
  pushed is_const col_vec !! i = Some num ->
  col_vec !! (if is_const then 0 else 0 + i)%nat = Some num.
Proof.
  unfold pushed. destruct is_const; [|done].
  destruct col_vec as [|e rest]; [done|].
  intros H. apply lookup_replicate in H as [-> _]. reflexivity.
Qed.

(** The conversion in closed form. *)
Lemma batch_closed_form {T} (push_number : list Byte.byte -> T -> list Byte.byte)
    (indeterminate : Z) (is_const : bool) (col_vec : list T)
    (column_to : DataTypeNumberBase.ColumnString) :
  Z.of_nat (length col_vec) <= DataTypeNumberBase.INT_MAX ->
  DataTypeNumberBase._to_string_batch_impl push_number indeterminate is_const
    col_vec column_to
  = Some {| DataTypeNumberBase.chars :=
              push_all push_number (pushed is_const col_vec)
                (DataTypeNumberBase.chars column_to);
            DataTypeNumberBase.offsets :=
              batch_offsets push_number (pushed is_const col_vec)
                (DataTypeNumberBase.chars column_to) |}.
Proof.
  intros Hmax. unfold DataTypeNumberBase._to_string_batch_impl.
  rewrite (proj2 (Z.ltb_ge _ _) Hmax).
  set (offs := resize _ _ _).
  assert (Hoffs : length offs = length col_vec) by apply length_resize.
  destruct (rows_closed_form push_number is_const col_vec
              (pushed is_const col_vec) 0 (DataTypeNumberBase.chars column_to) offs)
    as (offs' & Hrows & Hl & _ & Hrow).
  { apply pushed_selects. }
  { rewrite pushed_length. lia. }
  rewrite pushed_length in Hrows. rewrite Hrows. do 2 f_equal.
  apply list_eq. intros i. unfold batch_offsets.
  rewrite list_lookup_fmap.
  destruct (decide (i < length (pushed is_const col_vec))%nat) as [Hi|Hi].
  - specialize (Hrow i Hi). cbn in Hrow. rewrite Hrow.
    rewrite lookup_seq_lt by done. reflexivity.
  - rewrite lookup_seq_ge by lia. cbn.
    apply lookup_ge_None. rewrite pushed_length in Hi. lia.
Qed.

(** X14. For a column of at most [INT_MAX] rows the batch conversion
    reads no element past the end of the column and yields one end offset
    per row: the length of the bytes after that row's number was pushed,
    cut to 32 bits.  In constant mode every row pushes the first element.
    What the target's offsets held before, and what the resize left in new
    entries, does not show in the result; the target's bytes are handed to
    [push_number] as they are, never cleared. *)
Theorem batch_conversion_closed_form {T}
    (push_number : list Byte.byte -> T -> list Byte.byte)
    (indeterminate : Z) (is_const : bool) (col_vec : list T)
    (column_to : DataTypeNumberBase.ColumnString) :
  Z.of_nat (length col_vec) <= DataTypeNumberBase.INT_MAX ->
  DataTypeNumberBase._to_string_batch_impl push_number indeterminate is_const
    col_vec column_to
  = Some {| DataTypeNumberBase.chars :=
              push_all push_number (pushed is_const col_vec)
                (DataTypeNumberBase.chars column_to);
            DataTypeNumberBase.offsets :=
              batch_offsets push_number (pushed is_const col_vec)
                (DataTypeNumberBase.chars column_to) |}.
Proof. apply batch_closed_form. Qed.

Lemma push_all_appends {T} (push_number : list Byte.byte -> T -> list Byte.byte)
    (text : T -> list Byte.byte) (nums : list T) :
  appends push_number text ->
  forall chars : list Byte.byte,
    push_all push_number nums chars = chars ++ concat (text <$> nums).
Proof.
  intros Happ. unfold push_all.
  induction nums as [|num nums IH]; intros chars; cbn.
  - by rewrite app_nil_r.
  - by rewrite IH, Happ, <- app_assoc.
Qed.

Lemma concat_take_split {T} (text : T -> list Byte.byte) (nums : list T) (k : nat) :
  concat (text <$> nums)
  = concat (text <$> take k nums) ++ concat (text <$> drop k nums).
Proof. by rewrite <- concat_app, <- fmap_app, take_drop. Qed.

(** With an appending [push_number] and fewer than [2^32] bytes in all,
    the end offset of row [i] is the plain length of the bytes up to and
    including that row. *)
Lemma batch_offset_appends {T} (push_number : list Byte.byte -> T -> list Byte.byte)
    (text : T -> list Byte.byte) (nums : list T) (chars : list Byte.byte) (i : nat) :
  appends push_number text ->
  Z.of_nat (length chars) + Z.of_nat (length (concat (text <$> nums))) < 2 ^ 32 ->
  (i < length nums)%nat ->
  batch_offsets push_number nums chars !! i
  = Some (Z.of_nat (length chars + length (concat (text <$> take (S i) nums)))).
Proof.
  intros Happ Htotal Hi. unfold batch_offsets.
  rewrite list_lookup_fmap, lookup_seq_lt by done. cbn [fmap option_fmap option_map].
  f_equal. rewrite (push_all_appends _ _ _ Happ), length_app.
  unfold DataTypeNumberBase.to_UInt32.
  pose proof (f_equal length (concat_take_split text nums (S i))) as Hsplit.
  rewrite length_app in Hsplit.
  apply Z.mod_small. lia.
Qed.

(** X15. When [push_number] appends the text of the number and the bytes
    stay below [2^32] in all, the conversion keeps the bytes the target
    held, appends the texts in row order, and the bytes between the end
    offset of the row above and a row's own end offset are exactly the text
    of that row's number. *)
Theorem batch_rows_round_trip {T}
    (push_number : list Byte.byte -> T -> list Byte.byte)
    (text : T -> list Byte.byte) (indeterminate : Z) (is_const : bool)
    (col_vec : list T) (column_to : DataTypeNumberBase.ColumnString) :
  appends push_number text ->
  Z.of_nat (length col_vec) <= DataTypeNumberBase.INT_MAX ->
  Z.of_nat (length (DataTypeNumberBase.chars column_to))
  + Z.of_nat (length (concat (text <$> pushed is_const col_vec))) < 2 ^ 32 ->
  exists result,
    DataTypeNumberBase._to_string_batch_impl push_number indeterminate is_const
      col_vec column_to = Some result
    /\ DataTypeNumberBase.chars result
       = DataTypeNumberBase.chars column_to
         ++ concat (text <$> pushed is_const col_vec)
    /\ length (DataTypeNumberBase.offsets result) = length col_vec
    /\ forall (i : nat) num,
         pushed is_const col_vec !! i = Some num ->
         row_bytes (length (DataTypeNumberBase.chars column_to)) result i = text num.
Proof.
  intros Happ Hmax Htotal.
  eexists. split; [by apply batch_closed_form|].
  set (nums := pushed is_const col_vec) in *.
  set (chars0 := DataTypeNumberBase.chars column_to) in *.
  cbn [DataTypeNumberBase.chars DataTypeNumberBase.offsets].
  split; [by apply push_all_appends|].
  split.
  { unfold batch_offsets. rewrite length_fmap, length_seq. apply pushed_length. }
  intros i num Hnum.
  assert (Hi : (i < length nums)%nat) by (by eapply lookup_lt_Some).
  unfold row_bytes. cbn [DataTypeNumberBase.chars DataTypeNumberBase.offsets].
  rewrite (batch_offset_appends _ text _ _ i Happ Htotal Hi). cbn [default].
  assert (Hstart : match i with
                   | O => Z.of_nat (length chars0)
                   | S j => default 0 (batch_offsets push_number nums chars0 !! j)
                   end
                   = Z.of_nat (length chars0
                               + length (concat (text <$> take i nums)))).
  { destruct i as [|j]; [rewrite take_0; cbn [fmap list_fmap concat length]; lia|].
    by rewrite (batch_offset_appends _ text _ _ j Happ Htotal) by lia. }
  rewrite Hstart. clear Hstart.
  rewrite (take_S_r _ _ _ Hnum), fmap_app, concat_app. cbn [fmap list_fmap concat].
  rewrite app_nil_r, length_app.
  rewrite (push_all_appends _ _ _ Happ).
  rewrite (concat_take_split text nums i).
  rewrite (drop_S _ _ _ Hnum). cbn [fmap list_fmap concat].
  rewrite Nat2Z.id.
  replace (Z.to_nat _) with (length (text num)) by (unfold id; lia).
  rewrite (app_assoc chars0), <- (length_app chars0), drop_app_length.
  by rewrite take_app_length.
Qed.

(** X16. In constant mode the conversion depends on the column only
    through its first element and its number of rows: it gives what the
    plain mode gives on that element repeated once per row. *)
Theorem batch_constant_mode {T}
    (push_number : list Byte.byte -> T -> list Byte.byte)
    (indeterminate : Z) (num : T) (rest : list T)
    (column_to : DataTypeNumberBase.ColumnString) :
  Z.of_nat (length (num :: rest)) <= DataTypeNumberBase.INT_MAX ->
  DataTypeNumberBase._to_string_batch_impl push_number indeterminate true
    (num :: rest) column_to
  = DataTypeNumberBase._to_string_batch_impl push_number indeterminate false
      (replicate (length (num :: rest)) num) column_to.
Proof.
  intros Hmax.
  rewrite (batch_closed_form _ _ true) by done.
  rewrite (batch_closed_form _ _ false) by (by rewrite length_replicate).
  reflexivity.
Qed.

(** What a run-status query for a tablet answers, as a function of the
    tablet registry alone. *)
Lemma run_status_reply env req w tablet_id :
  Stoull.stoull (param req TABLET_ID_KEY) = inr tablet_id ->
  tablet_id <> 0 ->
  (call (_handle_run_status_compaction env req) w).1 =
    match tablets w !! tablet_id with
    | None => (Status.InternalError ("fail to get " +:+ to_string tablet_id), "")
    | Some t => (Status.OK_, report tablet_id (priority_answer t))
    end.
Proof.
  intros Hparse Hnz. unfold _handle_run_status_compaction.
  rewrite (check_param_id_parsed _ _ _ _ Hparse).
  apply Z.eqb_neq in Hnz.
  unfold get_tablet, try_to_lock, unlock, tablet_get, try_lock, priority_answer. exec.
  rewrite Hnz. cbn.
  destruct (tablets w !! tablet_id) as [t|] eqn:Ht; cbn; [|done].
  destruct (is_full_compaction_running t) eqn:Hfull,
           (cumulative_compaction_lock t) eqn:Hcumu,
           (base_compaction_lock t) eqn:Hbase;
    repeat (progress (cbn; rewrite ?lookup_alter_eq, ?Ht, ?Hfull, ?Hcumu, ?Hbase));
    done.
Qed.

(** X17. Status queries for a tablet can be repeated: asking again right
    away gives the same reply, because the first query left every mutex as
    it found it. *)
Theorem run_status_repeatable (env : Collaborators) (req : HttpRequest) (w : World)
    (tablet_id : Z) :
  Stoull.stoull (param req TABLET_ID_KEY) = inr tablet_id ->
  tablet_id <> 0 ->
  (call (_handle_run_status_compaction env req)
     (call (_handle_run_status_compaction env req) w).2).1
  = (call (_handle_run_status_compaction env req) w).1.
Proof.
  intros Hparse Hnz.
  rewrite !(run_status_reply _ _ _ _ Hparse Hnz).
  by rewrite run_status_leaves_tablets.
Qed.

(* ===================================================================== *)
(** ** The further properties at concrete inputs                          *)
(* ===================================================================== *)

(** A show request without parameters. *)
Lemma show_needs_tablet_id_witness :
  call (_handle_show_compaction (request [])) small_world =
    ((Status.InternalError "check param failed: missing tablet_id", ""), small_world).
Proof. apply (show_needs_tablet_id (request []) small_world). left. reflexivity. Defined.

(** A show request for tablet 10001. *)
Lemma show_looks_tablet_up_witness :
  call (_handle_show_compaction (request [("tablet_id", "10001")])) small_world =
    ((Status.OK_, "{}"), logs [GetTablet 10001; GetCompactionStatus 10001] small_world).
Proof.
  rewrite (show_looks_tablet_up (request [("tablet_id", "10001")]) small_world 10001
             eq_refl ltac:(discriminate)).
  reflexivity.
Defined.

(** A run-status request without parameters. *)
Lemma run_status_engine_wide_witness :
  call (_handle_run_status_compaction calm_env (request [])) small_world =
    ((Status.OK_, "{}"), log GetCompactionStatusJson small_world).
Proof.
  apply (run_status_engine_wide calm_env (request []) small_world). left. reflexivity.
Defined.

(** No tablet 999 in the small world. *)
Lemma unknown_tablet_witness :
  Status.code (call (_handle_run_status_compaction calm_env
                       (request [("tablet_id", "999"); ("compact_type", "base")]))
                 small_world).1.1 = Status.INTERNAL_ERROR
  /\ Status.code (call (_handle_show_compaction
                          (request [("tablet_id", "999"); ("compact_type", "base")]))
                    small_world).1.1 = Status.NOT_FOUND
  /\ Status.code (call (_handle_run_compaction calm_env
                          (request [("tablet_id", "999"); ("compact_type", "base")]))
                    small_world).1.1 = Status.NOT_FOUND.
Proof.
  destruct (unknown_tablet calm_env
              (request [("tablet_id", "999"); ("compact_type", "base")])
              small_world 999 eq_refl ltac:(discriminate) eq_refl)
    as (H1 & H2 & H3).
  rewrite H1, H2, H3; [done|reflexivity|].
  split; apply list_elem_of_In; vm_compute; tauto.
Defined.

(** A table-level trigger that asks for a base compaction, remotely. *)
Lemma fan_out_only_submits_witness :
  exists k : nat,
    (call (_handle_run_compaction calm_env
             (request [("table_id", "42"); ("compact_type", "base");
                       ("remote", "true")])) small_world).2
    = logs (GetAllTablet 42 :: submissions (take k (matching 42 small_world)))
        small_world.
Proof.
  destruct (fan_out_only_submits calm_env
              (request [("table_id", "42"); ("compact_type", "base");
                        ("remote", "true")])
              small_world 42 eq_refl eq_refl ltac:(discriminate))
    as (k & Hk & _).
  - split; apply list_elem_of_In; vm_compute; tauto.
  - exists k. exact Hk.
Defined.

(** [table_id=0] in a world without tablet 0. *)
Lemma table_id_zero_is_tablet_zero_witness :
  call (_handle_run_compaction calm_env
          (request [("table_id", "0"); ("compact_type", "full")])) small_world
  = ((Status.NotFound ("Tablet not found. tablet_id=" +:+ to_string 0), ""),
     log (GetTablet 0) small_world).
Proof.
  apply (table_id_zero_is_tablet_zero calm_env
           (request [("table_id", "0"); ("compact_type", "full")]) small_world);
    [reflexivity | reflexivity | | reflexivity].
  split; apply list_elem_of_In; vm_compute; tauto.
Defined.

(** A base compaction asked for while the fault-injection point is active. *)
Lemma debug_point_short_circuits_witness :
  call (_handle_run_compaction debug_env
          (request [("tablet_id", "10001"); ("compact_type", "base")])) small_world
  = ((Status.OK_,
      triggered_json "debug compaction task is successfully triggered. Table id: "
        0 10001),
     log (SubmitCompactionTask 10001 CUMULATIVE_COMPACTION false)
       (log (GetTablet 10001) small_world)).
Proof.
  apply (debug_point_short_circuits debug_env
           (request [("tablet_id", "10001"); ("compact_type", "base")])
           small_world 10001 (idle_tablet 42));
    [reflexivity | reflexivity | | reflexivity | discriminate | reflexivity].
  split; apply list_elem_of_In; vm_compute; tauto.
Defined.

(** The callback handed the kind [merge]. *)
Lemma callback_unknown_kind_witness :
  (call (_execute_compaction_callback calm_env 10001 "merge" false) small_world).1
  = Status.OK_.
Proof.
  apply (callback_unknown_kind calm_env 10001 "merge" false small_world).
  rewrite !not_elem_of_cons. repeat split; try discriminate. apply not_elem_of_nil.
Defined.

(** [tablet_id=-1] reads as the largest 64-bit value. *)
Lemma checked_ids_are_uint64_witness :
  is_uint64 (_check_param (request [("tablet_id", "-1")]) 0 0).1.2.
Proof.
  apply (checked_ids_are_uint64 (request [("tablet_id", "-1")]) 0 0 TABLET_ID_KEY);
    unfold is_uint64, ULLONG_MAX; lia.
Defined.


(** The numbers 7, 42 and 100 into an empty string column. *)
Lemma batch_conversion_closed_form_witness :
  DataTypeNumberBase._to_string_batch_impl push_decimal 0 false [7; 42; 100]
    empty_column
  = Some {| DataTypeNumberBase.chars := list_byte_of_string "742100";
            DataTypeNumberBase.offsets := [1; 3; 6] |}.
Proof.
  rewrite (batch_conversion_closed_form push_decimal 0 false [7; 42; 100] empty_column)
    by (vm_compute; discriminate).
  reflexivity.
Defined.

Lemma batch_rows_round_trip_witness :
  exists result,
    DataTypeNumberBase._to_string_batch_impl push_decimal 0 false [7; 42; 100]
      empty_column = Some result
    /\ row_bytes 0 result 1 = decimal_text 42.
Proof.
  destruct (batch_rows_round_trip push_decimal decimal_text 0 false [7; 42; 100]
              empty_column)
    as (result & Hres & _ & _ & Hrows).
  - intros chars num. reflexivity.
  - vm_compute. discriminate.
  - vm_compute. reflexivity.
  - exists result. split; [exact Hres|]. apply (Hrows 1%nat 42). reflexivity.
Defined.

(** A constant column of three rows holding 7. *)
Lemma batch_constant_mode_witness :
  DataTypeNumberBase._to_string_batch_impl push_decimal 0 true [7; 8; 9] empty_column
  = Some {| DataTypeNumberBase.chars := list_byte_of_string "777";
            DataTypeNumberBase.offsets := [1; 2; 3] |}.
Proof.
  rewrite (batch_constant_mode push_decimal 0 7 [8; 9] empty_column)
    by (vm_compute; discriminate).
  reflexivity.
Defined.

(** Asking twice about tablet 10001 while it compacts. *)
Lemma run_status_repeatable_witness :
  (call (_handle_run_status_compaction calm_env (request [("tablet_id", "10001")]))
     (call (_handle_run_status_compaction calm_env (request [("tablet_id", "10001")]))
        compacting_world).2).1
  = (call (_handle_run_status_compaction calm_env (request [("tablet_id", "10001")]))
       compacting_world).1.
Proof.
  apply (run_status_repeatable calm_env (request [("tablet_id", "10001")])
           compacting_world 10001); [reflexivity|discriminate].
Defined.
